(** * Anomaly-scoring pipeline of the monitoring platform

    A shallow embedding of [app/ml/anomaly_detection.py],
    [app/core/config.py] and the ingestion path of [app/api/v1/sensors.py],
    with the parts of [app/services/kafka_service.py],
    [app/services/redis_service.py] and [app/api/v1/monitoring.py] it
    meets.

    Python [float] is IEEE binary64; it is modelled by Rocq's primitive
    [float], whose operations are specified by the standard library
    ([FloatAxioms]) against the executable IEEE model [SpecFloat]. *)

From Stdlib Require Import String ZArith List Bool Lia PeanoNat Floats.
From Stdlib Require Permutation Sorted.
Import ListNotations.

Set Warnings "-inexact-float".

Open Scope float_scope.

(** ** Python comparison operators on floats *)

(** [x >= y] and [x > y] as Python evaluates them: false whenever an operand
    is NaN. *)
Definition geb (x y : float) : bool := y <=? x.
Definition gtb (x y : float) : bool := y <? x.

Infix ">=?" := geb (at level 70, no associativity) : float_scope.
Infix ">?" := gtb (at level 70, no associativity) : float_scope.

(** ** Severity policy: [AnomalyDetectionService._determine_severity] *)

Definition _determine_severity (anomaly_score : float) : string :=
  if anomaly_score >=? 0.9 then "critical"%string
  else if anomaly_score >=? 0.8 then "high"%string
  else if anomaly_score >=? 0.6 then "medium"%string
  else "low"%string.

(** The ordering low < medium < high < critical of the severity tiers;
    a string that is no tier has no rank. *)
Definition severity_rank (s : string) : option nat :=
  if String.eqb s "low" then Some 0%nat
  else if String.eqb s "medium" then Some 1%nat
  else if String.eqb s "high" then Some 2%nat
  else if String.eqb s "critical" then Some 3%nat
  else None.

(** [tier_le a b]: both are tiers and [a] is not ranked above [b]. *)
Definition tier_le (a b : string) : Prop :=
  exists i j, severity_rank a = Some i /\ severity_rank b = Some j /\ (i <= j)%nat.

(** ** Exceptions and the state-and-exception monad

    [AnomalyDetectionModel] keeps the loaded model and scaler in [self];
    a method either returns or raises, and the assignments made before a
    [raise] stay in [self]. *)

Inductive Exception : Type :=
| KeyError (key : string)            (* a DataFrame column that is absent *)
| ValueError (msg : string)          (* a value pandas or sklearn rejects *)
| IndexError (msg : string)          (* an index out of bounds *)
| AttributeError (msg : string)      (* a method of [None] *)
| LoadError (path : string).         (* an artifact that cannot be read *)

Inductive result (A : Type) : Type :=
| Ok (a : A)
| Raise (e : Exception).
Arguments Ok {A} a.
Arguments Raise {A} e.

Definition M (S A : Type) : Type := S -> result A * S.

Definition ret {S A} (a : A) : M S A := fun s => (Ok a, s).
Definition raise {S A} (e : Exception) : M S A := fun s => (Raise e, s).
Definition bind {S A B} (m : M S A) (k : A -> M S B) : M S B :=
  fun s => match m s with
           | (Ok a, s') => k a s'
           | (Raise e, s') => (Raise e, s')
           end.
Definition get {S} : M S S := fun s => (Ok s, s).
Definition lift {S A} (r : result A) : M S A := fun s => (r, s).

Notation "x <- m ;; k" := (bind m (fun x => k))
  (at level 61, m at next level, right associativity).
Notation "m ;;; k" := (bind m (fun _ => k))
  (at level 61, right associativity).

(** ** Sorting by a key

    Insertion sort; elements with equal keys keep their input order. *)

Fixpoint insert_by {A} (le : A -> A -> bool) (x : A) (l : list A) : list A :=
  match l with
  | [] => [x]
  | h :: t => if le h x then h :: insert_by le x t else x :: h :: t
  end.

Definition sort_by {A} (le : A -> A -> bool) (l : list A) : list A :=
  fold_left (fun acc x => insert_by le x acc) l [].

(** ** pandas operations on a float column

    [NaN] marks a missing value, as in pandas. *)

Definition of_nat (n : nat) : float := of_uint63 (Uint63.of_Z (Z.of_nat n)).
Definition of_Z (z : Z) : float := of_uint63 (Uint63.of_Z z).

(** [Series.fillna(v)] at one cell. *)
Definition fillna (v x : float) : float := if is_nan x then v else x.

Definition dropna (xs : list float) : list float :=
  filter (fun x => negb (is_nan x)) xs.

(** [Series.shift(1)]: every value moves one row down, the first row gets
    NaN and the last value falls off. *)
Definition shift (xs : list float) : list float :=
  match xs with
  | [] => []
  | _ :: _ => nan :: removelast xs
  end.

Definition zip_with {A B C} (f : A -> B -> C) (xs : list A) (ys : list B)
  : list C :=
  map (fun p => f (fst p) (snd p)) (combine xs ys).

(** [Series.diff()]: [x - x.shift(1)]. *)
Definition diff (xs : list float) : list float :=
  zip_with PrimFloat.sub xs (shift xs).

(** [Series.pct_change()]: [x / x.shift(1) - 1]. *)
Definition pct_change (xs : list float) : list float :=
  zip_with (fun x prev => x / prev - 1) xs (shift xs).

(** Python slicing [data[i:j]] for [0 <= i]: clamped to the list. *)
Definition slice {A} (data : list A) (i j : nat) : list A :=
  firstn (j - i) (skipn i data).

(** ** Rolling windows

    pandas computes a rolling aggregation with a compiled kernel that
    keeps a running state: [kinit] sets the state up at the first row of
    the series (it is given the value of that row), values enter the
    window through [kadd] and leave it through [kremove], and
    [kresult min_periods] reads the aggregate off the state (NaN below
    [min_periods] observations).  The kernels are not code of this
    repository; their arithmetic enters the model as a parameter, and
    what is modelled is the walk over the rows that feeds them. *)
Record RollingKernel : Type := mkKernel {
  kstate : Type;
  kinit : float -> kstate;
  kadd : float -> kstate -> kstate;
  kremove : float -> kstate -> kstate;
  kresult : nat -> kstate -> float
}.

(** The two kernels [_engineer_features] calls: [mean()] and [std()]. *)
Class RollingKernels : Type := {
  roll_mean : RollingKernel;
  roll_std : RollingKernel
}.

(** The values [vals] enter, or leave, the window in row order. *)
Definition feed (k : RollingKernel) (vals : list float) (st : kstate k)
  : kstate k :=
  fold_left (fun st v => kadd k v st) vals st.
Definition unfeed (k : RollingKernel) (vals : list float) (st : kstate k)
  : kstate k :=
  fold_left (fun st v => kremove k v st) vals st.

(** The kernel set up on the first of the values [vals] and given all of
    them. *)
Definition fed (k : RollingKernel) (vals : list float) : kstate k :=
  feed k vals (kinit k (nth 0 vals nan)).

(** The first row of the window of [window] rows that ends at row [i]:
    [max 0 (i + 1 - window)]. *)
Definition window_start (window i : nat) : nat := (S i - window)%nat.

(** The state of the kernel at row [i]: at row 0 the kernel is set up and
    the rows of the first window are added; at each later row the rows
    that left the window are removed and the new row is added. *)
Fixpoint roll_state (k : RollingKernel) (window : nat) (xs : list float)
  (i : nat) : kstate k :=
  match i with
  | O => fed k (slice xs (window_start window 0) 1)
  | S j =>
      feed k (slice xs (S j) (S (S j)))
        (unfeed k
           (slice xs (window_start window j) (window_start window (S j)))
           (roll_state k window xs j))
  end.

(** [Series.rolling(window, min_periods)] with the aggregation of the
    kernel [k]. *)
Definition rolling (window min_periods : nat) (k : RollingKernel)
  (xs : list float) : list float :=
  map (fun i => kresult k min_periods (roll_state k window xs i))
      (seq 0 (length xs)).

(** *** A kernel to run examples with

    It keeps the values of the window and aggregates the observations
    (the non-NaN values) afresh at every row, with the textbook mean and
    sample standard deviation.  pandas' kernels compute the same
    quantities by running updates and differ from these in rounding and
    in overflow; no theorem depends on this kernel, only the examples at
    the end are run with it. *)

Definition sum (xs : list float) : float := fold_left PrimFloat.add xs 0.

Definition textbook_mean (obs : list float) : float :=
  sum obs / of_nat (length obs).

(** The sample standard deviation (ddof = 1): NaN for fewer than two
    observations. *)
Definition textbook_std (obs : list float) : float :=
  if (length obs <=? 1)%nat then nan
  else
    let m := textbook_mean obs in
    sqrt (sum (map (fun x => (x - m) * (x - m)) obs)
          / of_nat (length obs - 1)).

Definition window_kernel (agg : list float -> float) : RollingKernel :=
  {| kstate := list float;
     kinit := fun _ => [];
     kadd := fun v st => st ++ [v];
     kremove := fun _ st => tl st;
     kresult := fun min_periods st =>
       let obs := dropna st in
       if (length obs <? min_periods)%nat then nan else agg obs |}.

Definition textbook_kernels : RollingKernels :=
  {| roll_mean := window_kernel textbook_mean;
     roll_std := window_kernel textbook_std |}.

(** ** Readings and feature rows *)

(** A reading as the dict the pipeline receives.  [timestamp] is the
    parsed instant in microseconds since the epoch; [None] is a dict
    without that key (the request body [SensorDataCreate] has none), which
    pandas turns into NaT. *)
Module Reading.
Record t : Type := mk {
  sensor_id : string;
  sensor_type : string;
  timestamp : option Z;
  value : float;
  unit : string;
  location : option string
}.
End Reading.

(** One row of the engineered DataFrame, in the order of
    [feature_columns]. *)
Module Features.
Record t : Type := mk {
  value : float;
  hour : float;
  day_of_week : float;
  rolling_mean_24h : float;
  rolling_std_24h : float;
  value_diff : float;
  value_change_rate : float
}.

(** [df[self.feature_columns].values], one row. *)
Definition values (r : t) : list float :=
  [value r; hour r; day_of_week r; rolling_mean_24h r; rolling_std_24h r;
   value_diff r; value_change_rate r].
End Features.

Definition usec_per_hour : Z := 3600000000.
Definition usec_per_day : Z := 86400000000.

(** [Series.dt.hour] and [Series.dt.dayofweek] (Monday is 0; the epoch was
    a Thursday); NaN at NaT. *)
Definition dt_hour (ts : option Z) : float :=
  match ts with
  | Some t => of_Z ((t / usec_per_hour) mod 24)
  | None => nan
  end.
Definition dt_dayofweek (ts : option Z) : float :=
  match ts with
  | Some t => of_Z ((t / usec_per_day + 3) mod 7)
  | None => nan
  end.

(** [df.sort_values('timestamp')]: ascending, NaT last.  Rows with equal
    timestamps keep their input order here; pandas leaves their order
    open. *)
Definition timestamp_le (a b : option Z) : bool :=
  match a, b with
  | Some x, Some y => (x <=? y)%Z
  | Some _, None => true
  | None, Some _ => false
  | None, None => true
  end.

Definition reading_le (a b : Reading.t) : bool :=
  timestamp_le (Reading.timestamp a) (Reading.timestamp b).

Definition sort_values (df : list Reading.t) : list Reading.t :=
  sort_by reading_le df.

(** ** [AnomalyDetectionModel] *)

Definition sequence_length : nat := 24.

(** The column of sorted values the rolling and difference features are
    computed from. *)
Definition sorted_values (df : list Reading.t) : list float :=
  map Reading.value (sort_values df).

(** The dict of a reading has the key [timestamp]. *)
Definition has_timestamp (r : Reading.t) : bool :=
  match Reading.timestamp r with Some _ => true | None => false end.

(** [pd.to_datetime] on the timestamp column.  A timestamp reaches the
    frame as the string [datetime.isoformat()] writes (the rows read by
    [get_historical_sensor_data] and the stamp of the Kafka producer are
    written so): with the microseconds after a dot, or without them when
    they are zero.  pandas takes the format of the first string of the
    column and raises [ValueError] at a string in the other format; a
    missing value becomes NaT. *)
Definition iso_has_fraction (t : Z) : bool := negb (t mod 1000000 =? 0)%Z.

Definition first_timestamp (df : list Reading.t) : option Z :=
  match find has_timestamp df with
  | Some r => Reading.timestamp r
  | None => None
  end.

Definition to_datetime_ok (df : list Reading.t) : bool :=
  match first_timestamp df with
  | None => true
  | Some t0 =>
      forallb (fun r => match Reading.timestamp r with
                        | Some t => Bool.eqb (iso_has_fraction t)
                                      (iso_has_fraction t0)
                        | None => true
                        end) df
  end.

(** [_engineer_features].  A frame built from dicts has a [timestamp]
    column only when some dict has the key; [df['timestamp']] raises
    [KeyError] otherwise (the empty frame included), and [pd.to_datetime]
    raises [ValueError] on mixed formats.  The last [fillna(0)] covers
    every column. *)
Definition _engineer_features {K : RollingKernels} (df : list Reading.t)
  : result (list Features.t) :=
  if negb (existsb has_timestamp df)
  then Raise (KeyError "timestamp")
  else if negb (to_datetime_ok df)
  then Raise (ValueError "time data does not match format")
  else
    let df := sort_values df in
    let value := map Reading.value df in
    let hour := map (fun r => dt_hour (Reading.timestamp r)) df in
    let day_of_week := map (fun r => dt_dayofweek (Reading.timestamp r)) df in
    let rolling_mean_24h := rolling 24 1 roll_mean value in
    let rolling_std_24h := rolling 24 1 roll_std value in
    let value_diff := map (fillna 0) (diff value) in
    let value_change_rate := map (fillna 0) (pct_change value) in
    Ok (map (fun i =>
               Features.mk
                 (fillna 0 (nth i value nan))
                 (fillna 0 (nth i hour nan))
                 (fillna 0 (nth i day_of_week nan))
                 (fillna 0 (nth i rolling_mean_24h nan))
                 (fillna 0 (nth i rolling_std_24h nan))
                 (fillna 0 (nth i value_diff nan))
                 (fillna 0 (nth i value_change_rate nan)))
            (seq 0 (length df))).

(** The loop of [_create_sequences] over the indices [idx], with the lists
    [X] and [y] built so far.  [labels[k]] on a numpy array raises
    [IndexError] out of bounds. *)
Fixpoint create_sequences_loop (data : list (list float)) (labels : list Z)
  (idx : list nat) (X : list (list (list float))) (y : list Z)
  : result (list (list (list float)) * list Z) :=
  match idx with
  | [] => Ok (X, y)
  | i :: rest =>
      let X := X ++ [slice data i (i + sequence_length)] in
      match nth_error labels (i + sequence_length - 1) with
      | None => Raise (IndexError "labels")
      | Some label => create_sequences_loop data labels rest X (y ++ [label])
      end
  end.

(** [range(n)] for a Python integer [n]: empty when [n <= 0]. *)
Definition range (n : Z) : list nat := seq 0 (Z.to_nat n).

Definition _create_sequences (data : list (list float)) (labels : list Z)
  : result (list (list (list float)) * list Z) :=
  create_sequences_loop data labels
    (range (Z.of_nat (length data) - Z.of_nat sequence_length + 1)) [] [].

(** A fitted [sklearn.preprocessing.StandardScaler]. *)
Module StandardScaler.
Record t : Type := mk {
  mean_ : list float;
  scale_ : list float
}.

Definition transform_row (s : t) (row : list float) : list float :=
  zip_with (fun xm sc => fst xm / sc)
    (zip_with (fun x m => (x - m, m)) row (mean_ s)) (scale_ s).

(** [transform]: input validation (at least one sample, the fitted
    number of features, no infinity; NaN is let through), then
    [(X - mean_) / scale_]. *)
Definition transform (s : t) (X : list (list float))
  : result (list (list float)) :=
  match X with
  | [] => Raise (ValueError "Found array with 0 sample(s)")
  | _ :: _ =>
      if negb (forallb (fun row => (length row =? length (mean_ s))%nat) X)
      then Raise (ValueError "X has a different number of features")
      else if existsb (existsb is_infinity) X
      then Raise (ValueError "Input X contains infinity")
      else Ok (map (transform_row s) X)
  end.
End StandardScaler.

(** A loaded [keras.Model], seen through the one call the pipeline makes:
    [predict] stands for [model.predict(X_seq)[0][0]] on the batch holding
    the single sequence [X_seq]. *)
Module KerasModel.
Record t : Type := mk { predict : list (list float) -> float }.
End KerasModel.

(** [Settings] of [app/core/config.py], the fields the pipeline reads. *)
Module Settings.
Record t : Type := mk {
  MODEL_PATH : string;
  MODEL_ACCURACY_THRESHOLD : float
}.
Definition default : t := mk "models/anomaly_detector.h5" 0.95.
End Settings.

(** What is stored under [MODEL_PATH] and the scaler path derived from it;
    [None] is a file that is missing or cannot be read. *)
Module Artifacts.
Record t : Type := mk {
  model_file : option KerasModel.t;
  scaler_file : option StandardScaler.t
}.
End Artifacts.

(** The mutable fields of an [AnomalyDetectionModel] instance. *)
Module ModelState.
Record t : Type := mk {
  model : option KerasModel.t;
  scaler : option StandardScaler.t
}.
(** [__init__] *)
Definition init : t := mk None None.
End ModelState.

(** [load_model]: the model is assigned before the scaler is read, and the
    exception of either load is raised again after logging. *)
Definition load_model (art : Artifacts.t) : M ModelState.t unit :=
  fun self =>
    match Artifacts.model_file art with
    | None => (Raise (LoadError "model"), self)
    | Some m =>
        let self := ModelState.mk (Some m) (ModelState.scaler self) in
        match Artifacts.scaler_file art with
        | None => (Raise (LoadError "scaler"), self)
        | Some sc => (Ok tt, ModelState.mk (Some m) (Some sc))
        end
    end.

Definition is_none {A} (o : option A) : bool :=
  match o with None => true | Some _ => false end.

(** [X_scaled[-n:]]: the last [n] rows. *)
Definition last_rows {A} (n : nat) (X : list A) : list A :=
  skipn (length X - n) X.

(** [predict_anomaly] *)
Definition predict_anomaly {K : RollingKernels} (art : Artifacts.t)
  (sensor_data : list Reading.t)
  : M ModelState.t (bool * float) :=
  self <- get ;;
  (if is_none (ModelState.model self) || is_none (ModelState.scaler self)
   then load_model art else ret tt) ;;;
  df <- lift (_engineer_features sensor_data) ;;
  let X := map Features.values df in
  self <- get ;;
  match ModelState.scaler self, ModelState.model self with
  | Some scaler, Some model =>
      X_scaled <- lift (StandardScaler.transform scaler X) ;;
      if (length X_scaled <? sequence_length)%nat
      then ret (false, 0)
      else
        let X_seq := last_rows sequence_length X_scaled in
        let prediction := KerasModel.predict model X_seq in
        let is_anomaly := prediction >? 0.5 in
        ret (is_anomaly, prediction)
  | _, _ => raise (AttributeError "NoneType")
  end.

(** ** [AnomalyDetectionService] *)

(** The [message] of a detection result; the formatted score and the
    text of the exception are kept as the values they are built from. *)
Inductive Message : Type :=
| AnomalyDetectedWithScore (anomaly_score : float)
| NoAnomalyDetected
| DetectionError (e : Exception).

(** The dict [detect_anomaly] returns.  The last three keys exist only in
    the dict of a detected anomaly. *)
Module DetectionResult.
Record t : Type := mk {
  is_anomaly : bool;
  anomaly_score : float;
  severity : string;
  message : Message;
  timestamp : option Z;
  sensor_id : option string;
  sensor_value : option float
}.
End DetectionResult.

(** [detect_anomaly]; [utcnow] is the clock read for a reading without a
    timestamp. *)
Definition detect_anomaly {K : RollingKernels} (settings : Settings.t)
  (art : Artifacts.t)
  (utcnow : Z) (current_data : Reading.t) (historical_data : list Reading.t)
  (self : ModelState.t) : DetectionResult.t * ModelState.t :=
  let all_data := historical_data ++ [current_data] in
  match predict_anomaly art all_data self with
  | (Ok (is_anomaly, anomaly_score), self) =>
      if is_anomaly
         && (anomaly_score >=? Settings.MODEL_ACCURACY_THRESHOLD settings)
      then
        let severity := _determine_severity anomaly_score in
        (DetectionResult.mk true anomaly_score severity
           (AnomalyDetectedWithScore anomaly_score)
           (Some (match Reading.timestamp current_data with
                  | Some t => t
                  | None => utcnow
                  end))
           (Some (Reading.sensor_id current_data))
           (Some (Reading.value current_data)),
         self)
      else
        (DetectionResult.mk false anomaly_score "normal" NoAnomalyDetected
           None None None,
         self)
  | (Raise e, self) =>
      (DetectionResult.mk false 0 "error" (DetectionError e) None None None,
       self)
  end.

(** The pattern [^(low|medium|high|critical)$] of
    [AnomalyAlertCreate.severity]. *)
Definition severity_enum : list string :=
  ["low"; "medium"; "high"; "critical"]%string.
Definition severity_in_enum (s : string) : bool :=
  existsb (String.eqb s) severity_enum.

(** The model and scaler [predict_anomaly] works with: those of [self]
    when both are set, the stored artifacts otherwise. *)
Definition ready (art : Artifacts.t) (self : ModelState.t)
  : option (KerasModel.t * StandardScaler.t) :=
  match ModelState.model self, ModelState.scaler self with
  | Some m, Some sc => Some (m, sc)
  | _, _ =>
      match Artifacts.model_file art, Artifacts.scaler_file art with
      | Some m, Some sc => Some (m, sc)
      | _, _ => None
      end
  end.

(** The steps of [predict_anomaly] that follow the loading, for the model
    [m] and the scaler [sc] it then holds. *)
Definition score_with {K : RollingKernels} (m : KerasModel.t)
  (sc : StandardScaler.t)
  (sensor_data : list Reading.t) : result (bool * float) :=
  match _engineer_features sensor_data with
  | Raise e => Raise e
  | Ok df =>
      match StandardScaler.transform sc (map Features.values df) with
      | Raise e => Raise e
      | Ok X_scaled =>
          if (length X_scaled <? sequence_length)%nat then Ok (false, 0)
          else
            let prediction :=
              KerasModel.predict m (last_rows sequence_length X_scaled) in
            Ok (prediction >? 0.5, prediction)
      end
  end.

(** ** Ingestion: [app/api/v1/sensors.py]

    Instants are microseconds since the epoch.  Each operation receives
    the clock reading [utcnow] it makes.  The database and the cache are
    taken to answer; their outages are outside this model. *)

Module SensorDataCreate.
Record t : Type := mk {
  sensor_id : string;
  sensor_type : string;
  value : float;
  unit : string;
  location : option string
}.

(** [sensor_data.dict()]: the request body has no timestamp. *)
Definition dict (r : t) : Reading.t :=
  Reading.mk (sensor_id r) (sensor_type r) None (value r) (unit r)
    (location r).
End SensorDataCreate.

(** A row of the table [sensor_data]. *)
Module SensorData.
Record t : Type := mk {
  id : nat;
  sensor_id : string;
  sensor_type : string;
  timestamp : Z;
  value : float;
  unit : string;
  location : option string;
  is_anomaly : bool;
  anomaly_score : option float
}.
End SensorData.

(** A row of the table [anomaly_alerts]. *)
Module AnomalyAlert.
Record t : Type := mk {
  id : nat;
  sensor_id : string;
  alert_type : string;
  severity : string;
  message : Message;
  anomaly_score : float;
  sensor_value : float;
  timestamp : Z;
  resolved : bool
}.
End AnomalyAlert.

Module Database.
Record t : Type := mk {
  sensor_data : list SensorData.t;
  anomaly_alerts : list AnomalyAlert.t
}.
Definition empty : t := mk [] [].
End Database.

(** [create_sensor_data]: one INSERT.  The primary key is the next of the
    table's sequence, which is the number of rows plus one as long as no
    insert failed and no row was deleted (a failed insert is an outage,
    outside this model); the timestamp is the column default [utcnow],
    [is_anomaly] the column default [False]. *)
Definition create_sensor_data (utcnow : Z) (sensor_data : SensorDataCreate.t)
  (db : Database.t) : SensorData.t * Database.t :=
  let db_sensor_data :=
    SensorData.mk (S (length (Database.sensor_data db)))
      (SensorDataCreate.sensor_id sensor_data)
      (SensorDataCreate.sensor_type sensor_data)
      utcnow
      (SensorDataCreate.value sensor_data)
      (SensorDataCreate.unit sensor_data)
      (SensorDataCreate.location sensor_data)
      false None in
  (db_sensor_data,
   Database.mk (Database.sensor_data db ++ [db_sensor_data])
     (Database.anomaly_alerts db)).

(** The Redis cache behind [cache_get] and [cache_set]: the newest entry
    of a key first, each with the instant it expires at.  The key
    [historical_data:{sensor_id}:{hours}h] is kept as the pair it is
    formatted from. *)
Module Cache.
Definition key : Type := (string * Z)%type.
Definition t : Type := list (key * (list Reading.t * Z)).

Definition key_eqb (a b : key) : bool :=
  String.eqb (fst a) (fst b) && (snd a =? snd b)%Z.

Definition cache_get (k : key) (utcnow : Z) (c : t)
  : option (list Reading.t) :=
  match find (fun e => key_eqb (fst e) k) c with
  | Some (_, (v, expires)) => if (utcnow <? expires)%Z then Some v else None
  | None => None
  end.

Definition cache_set (k : key) (v : list Reading.t) (ttl : Z) (utcnow : Z)
  (c : t) : t :=
  (k, (v, (utcnow + ttl * 1000000)%Z)) :: c.
End Cache.

(** The dict [get_historical_sensor_data] builds from a row. *)
Definition to_dict (data : SensorData.t) : Reading.t :=
  Reading.mk (SensorData.sensor_id data) (SensorData.sensor_type data)
    (Some (SensorData.timestamp data)) (SensorData.value data)
    (SensorData.unit data) (SensorData.location data).

Definition sensor_data_le (a b : SensorData.t) : bool :=
  (SensorData.timestamp a <=? SensorData.timestamp b)%Z.

(** The SELECT of [get_historical_sensor_data]: the rows of the sensor
    from [start_time] on, ordered by timestamp. *)
Definition select_since (sensor_id : string) (start_time : Z)
  (table : list SensorData.t) : list SensorData.t :=
  sort_by sensor_data_le
    (filter (fun d => String.eqb (SensorData.sensor_id d) sensor_id
                      && (start_time <=? SensorData.timestamp d)%Z)
            table).

(** [get_historical_sensor_data]: a non-empty cached list is returned as
    it is; otherwise the rows are read and cached for five minutes. *)
Definition get_historical_sensor_data (sensor_id : string) (hours : Z)
  (utcnow : Z) (db : Database.t) (cache : Cache.t)
  : list Reading.t * Cache.t :=
  let cache_key := (sensor_id, hours) in
  match Cache.cache_get cache_key utcnow cache with
  | Some (r :: cached) => (r :: cached, cache)
  | _ =>
      let start_time := (utcnow - hours * usec_per_hour)%Z in
      let sensor_data :=
        select_since sensor_id start_time (Database.sensor_data db) in
      let historical_data := map to_dict sensor_data in
      (historical_data,
       Cache.cache_set cache_key historical_data 300 utcnow cache)
  end.

(** [update_sensor_anomaly_status] *)
Definition update_sensor_anomaly_status (sensor_data_id : nat)
  (detection_result : DetectionResult.t) (db : Database.t) : Database.t :=
  Database.mk
    (map (fun d =>
            if (SensorData.id d =? sensor_data_id)%nat
            then SensorData.mk (SensorData.id d) (SensorData.sensor_id d)
                   (SensorData.sensor_type d) (SensorData.timestamp d)
                   (SensorData.value d) (SensorData.unit d)
                   (SensorData.location d)
                   (DetectionResult.is_anomaly detection_result)
                   (Some (DetectionResult.anomaly_score detection_result))
            else d)
         (Database.sensor_data db))
    (Database.anomaly_alerts db).

(** [create_anomaly_alert]: one INSERT into [anomaly_alerts], the key
    taken as in [create_sensor_data]. *)
Definition create_anomaly_alert (utcnow : Z) (sensor_data : Reading.t)
  (detection_result : DetectionResult.t) (db : Database.t) : Database.t :=
  let alert :=
    AnomalyAlert.mk (S (length (Database.anomaly_alerts db)))
      (Reading.sensor_id sensor_data)
      "anomaly_detection"
      (DetectionResult.severity detection_result)
      (DetectionResult.message detection_result)
      (DetectionResult.anomaly_score detection_result)
      (Reading.value sensor_data)
      utcnow false in
  Database.mk (Database.sensor_data db)
    (Database.anomaly_alerts db ++ [alert]).

(** What [process_sensor_data_async] works on: the tables, the cache and
    the model of the global detection service. *)
Module World.
Record t : Type := mk {
  db : Database.t;
  cache : Cache.t;
  service : ModelState.t
}.
End World.

(** [process_sensor_data_async], after its two publications (to Redis and
    to Kafka) have returned; when one of them raises, the exception is
    logged and nothing below runs. *)
Definition process_sensor_data_async {K : RollingKernels}
  (settings : Settings.t)
  (art : Artifacts.t) (utcnow : Z) (sensor_data : Reading.t)
  (sensor_data_id : nat) (w : World.t) : World.t :=
  let '(historical_data, cache) :=
    get_historical_sensor_data (Reading.sensor_id sensor_data) 24 utcnow
      (World.db w) (World.cache w) in
  let '(detection_result, service) :=
    detect_anomaly settings art utcnow sensor_data historical_data
      (World.service w) in
  let db := update_sensor_anomaly_status sensor_data_id detection_result
              (World.db w) in
  let db :=
    if DetectionResult.is_anomaly detection_result
    then create_anomaly_alert utcnow sensor_data detection_result db
    else db in
  World.mk db cache service.

(** The number of entries of a window that carry the timestamp [ts]. *)
Definition entries_at (ts : Z) (window : list Reading.t) : nat :=
  length (filter (fun d => match Reading.timestamp d with
                           | Some t => (t =? ts)%Z
                           | None => false
                           end) window).

(** ** Example data *)

Definition reading_at (ts : Z) (v : float) : Reading.t :=
  Reading.mk "sensor-1" "temperature" (Some ts) v "C" None.

(** Two readings one second apart. *)
Definition two_readings : list Reading.t :=
  [reading_at 0 1; reading_at 1000000 2].

(** A reading of 0.0 followed by a reading of 5.0. *)
Definition zero_then_five : list Reading.t :=
  [reading_at 0 0; reading_at 1000000 5].

(** 25 one-feature rows and their labels. *)
Definition rows25 : list (list float) := map (fun i => [of_nat i]) (seq 0 25).
Definition labels25 : list Z := map Z.of_nat (seq 0 25).

Definition no_artifacts : Artifacts.t := Artifacts.mk None None.

(** A scaler fitted on seven features that leaves the values as they
    are, and a classifier that answers with one probability. *)
Definition unit_scaler : StandardScaler.t :=
  StandardScaler.mk (repeat 0 7) (repeat 1 7).
Definition constant_model (p : float) : KerasModel.t :=
  KerasModel.mk (fun _ => p).
Definition loaded (p : float) : ModelState.t :=
  ModelState.mk (Some (constant_model p)) (Some unit_scaler).

(** 23 readings around 20.0, one per hour, and a reading of 200.0 in the
    next hour. *)
Definition stable_history : list Reading.t :=
  map (fun i => reading_at (Z.of_nat i * usec_per_hour) 20) (seq 0 23).
Definition spike : Reading.t := reading_at (23 * usec_per_hour) 200.

Definition temperature_20 : SensorDataCreate.t :=
  SensorDataCreate.mk "sensor-1" "temperature" 20 "C" None.

(** ** Further definitions: feature rows and their readings *)

Definition not_nan (x : float) : bool := negb (is_nan x).

(** ** Further definitions: the background task from its first line *)

(** [KafkaService.produce_sensor_data], as far as the dict it is given is
    concerned: a dict without timestamp gets the clock reading under that
    key, in place, before the send.  The caller keeps using the same
    dict, so the function returns it. *)
Definition produce_sensor_data (utcnow : Z) (sensor_data : Reading.t)
  : Reading.t :=
  match Reading.timestamp sensor_data with
  | Some _ => sensor_data
  | None =>
      Reading.mk (Reading.sensor_id sensor_data)
        (Reading.sensor_type sensor_data) (Some utcnow)
        (Reading.value sensor_data) (Reading.unit sensor_data)
        (Reading.location sensor_data)
  end.

(** How the call of the Kafka producer ends: the record is sent, or the
    producer cannot be initialized (before the dict is touched), or the
    send fails (after the timestamp was added). *)
Inductive KafkaOutcome : Type :=
| KafkaSent
| KafkaInitializeFailed
| KafkaSendFailed.

(** The background task [process_sensor_data_async] from its first line.
    [redis_ok] tells whether the publication to Redis returns and [kafka]
    how the send to Kafka ends; an exception of either is logged and ends
    the task.  [kafka_now] is the clock the Kafka producer reads, [utcnow]
    the clock of the steps after it.  The dict as the task leaves it is
    returned with the world. *)
Definition background_task {K : RollingKernels} (settings : Settings.t)
  (art : Artifacts.t)
  (redis_ok : bool) (kafka : KafkaOutcome) (kafka_now utcnow : Z)
  (sensor_data : Reading.t) (sensor_data_id : nat) (w : World.t)
  : Reading.t * World.t :=
  if negb redis_ok then (sensor_data, w)
  else
    match kafka with
    | KafkaInitializeFailed => (sensor_data, w)
    | KafkaSendFailed => (produce_sensor_data kafka_now sensor_data, w)
    | KafkaSent =>
        let sensor_data := produce_sensor_data kafka_now sensor_data in
        (sensor_data,
         process_sensor_data_async settings art utcnow sensor_data
           sensor_data_id w)
    end.

(** ** Further definitions: the read endpoints of [sensors.py] *)

Inductive HTTPException : Type :=
| HTTPError (status_code : nat) (detail : string).

(** ORDER BY timestamp DESC. *)
Definition sensor_data_ge (a b : SensorData.t) : bool :=
  (SensorData.timestamp b <=? SensorData.timestamp a)%Z.

(** An optional query parameter under [if param:]: [None] and the empty
    string both leave the filter out. *)
Definition filter_by (param : option string) (field : SensorData.t -> string)
  (rows : list SensorData.t) : list SensorData.t :=
  match param with
  | Some (String c s) =>
      filter (fun d => String.eqb (field d) (String c s)) rows
  | _ => rows
  end.

(** [get_sensor_data]: the rows that pass the filters given, newest first,
    [limit] of them after the first [offset].  [limit] and [offset] are
    taken non-negative.  Rows with equal timestamps come in one fixed
    order here; the database leaves their order open. *)
Definition get_sensor_data (sensor_id sensor_type : option string)
  (limit offset : nat) (db : Database.t) : list SensorData.t :=
  firstn limit
    (skipn offset
       (sort_by sensor_data_ge
          (filter_by sensor_type SensorData.sensor_type
             (filter_by sensor_id SensorData.sensor_id
                (Database.sensor_data db))))).

(** [get_latest_sensor_data]: the newest row of the sensor, HTTP 404 when
    it has none. *)
Definition get_latest_sensor_data (sensor_id : string) (db : Database.t)
  : SensorData.t + HTTPException :=
  match sort_by sensor_data_ge
          (filter (fun d => String.eqb (SensorData.sensor_id d) sensor_id)
             (Database.sensor_data db)) with
  | [] => inr (HTTPError 404 "Sensor data not found")
  | d :: _ => inl d
  end.

(** ** Further example data *)

(** The world after one reading was stored at instant 1000. *)
Definition one_reading_world : World.t :=
  World.mk (snd (create_sensor_data 1000 temperature_20 Database.empty))
    [] ModelState.init.

(** A world whose cache holds the stable history of the sensor and whose
    classifier answers 0.97. *)
Definition spike_world : World.t :=
  World.mk Database.empty
    [(("sensor-1"%string, 24%Z), (stable_history, 100000000000%Z))]
    (loaded 0.97).

(** ** Further definitions: [get_sensors_status] of [monitoring.py] *)

(** One entry of the status list. *)
Module SensorStatus.
Record t : Type := mk {
  sensor_id : string;
  sensor_type : string;
  last_seen : Z;
  status : string;
  latest_value : float;
  unit : string;
  location : option string;
  is_anomaly : bool;
  anomaly_score : option float
}.
End SensorStatus.

(** The response of [get_sensors_status]. *)
Module SensorsStatus.
Record t : Type := mk {
  sensors : list SensorStatus.t;
  total_count : nat;
  healthy_count : nat;
  stale_count : nat
}.
End SensorsStatus.

(** The join of the table with the newest timestamp of each sensor: the
    rows that no row of the same sensor is newer than. *)
Definition latest_rows (table : list SensorData.t) : list SensorData.t :=
  filter (fun d =>
            forallb (fun d' =>
                       negb (String.eqb (SensorData.sensor_id d')
                               (SensorData.sensor_id d))
                       || (SensorData.timestamp d'
                             <=? SensorData.timestamp d)%Z)
                    table)
         table.

(** A sensor is healthy when its newest reading is less than 3600 seconds
    old, stale otherwise. *)
Definition sensor_status (utcnow : Z) (sensor : SensorData.t)
  : SensorStatus.t :=
  let time_since_last := (utcnow - SensorData.timestamp sensor)%Z in
  let status := if (time_since_last <? 3600 * 1000000)%Z
                then "healthy"%string else "stale"%string in
  SensorStatus.mk (SensorData.sensor_id sensor)
    (SensorData.sensor_type sensor) (SensorData.timestamp sensor) status
    (SensorData.value sensor) (SensorData.unit sensor)
    (SensorData.location sensor) (SensorData.is_anomaly sensor)
    (SensorData.anomaly_score sensor).

Definition count_status (s : string) (l : list SensorStatus.t) : nat :=
  length (filter (fun e => String.eqb (SensorStatus.status e) s) l).

(** [get_sensors_status]; [clock k] is the clock reading made for the
    k-th sensor of the loop. *)
Definition get_sensors_status (clock : nat -> Z) (db : Database.t)
  : SensorsStatus.t :=
  let sensors := latest_rows (Database.sensor_data db) in
  let sensor_status :=
    map (fun kd => sensor_status (clock (fst kd)) (snd kd))
        (combine (seq 0 (length sensors)) sensors) in
  SensorsStatus.mk sensor_status (length sensor_status)
    (count_status "healthy" sensor_status)
    (count_status "stale" sensor_status).

(** ** Order facts on binary64 *)

Section SpecFloatOrder.

Local Open Scope Z_scope.

Ltac cmp_cases :=
  repeat match goal with
  | |- context [Z.compare ?a ?b] => destruct (Z.compare_spec a b)
  | |- context [Pos.compare_cont Eq ?a ?b] =>
      change (Pos.compare_cont Eq a b) with (Pos.compare a b);
      destruct (Pos.compare_spec a b)
  end.

Lemma SFltb_SFleb_false (x y : spec_float) :
  SFltb x y = true -> SFleb y x = false.
Proof.
  unfold SFltb, SFleb.
  destruct x as [sx|sx| |sx mx ex], y as [sy|sy| |sy my ey]; simpl;
    try destruct sx; try destruct sy; simpl; try congruence;
    cmp_cases; simpl; subst; try congruence; try lia.
Qed.

Lemma SFleb_SFltb_trans (c x y : spec_float) :
  SFleb c x = true -> SFltb x y = true -> SFleb c y = true.
Proof.
  unfold SFltb, SFleb.
  destruct c as [sc|sc| |sc mc ec], x as [sx|sx| |sx mx ex],
           y as [sy|sy| |sy my ey]; simpl;
    try destruct sc; try destruct sx; try destruct sy; simpl;
    try congruence;
    cmp_cases; simpl; subst; try congruence; try lia.
Qed.

Lemma SFleb_trans (x y z : spec_float) :
  SFleb x y = true -> SFleb y z = true -> SFleb x z = true.
Proof.
  unfold SFleb.
  destruct x as [sx|sx| |sx mx ex], y as [sy|sy| |sy my ey],
           z as [sz|sz| |sz mz ez]; simpl;
    try destruct sx; try destruct sy; try destruct sz; simpl;
    try congruence;
    cmp_cases; simpl; subst; try congruence; try lia.
Qed.

End SpecFloatOrder.

Lemma ltb_geb_false (x y : float) : (x <? y) = true -> (x >=? y) = false.
Proof.
  unfold geb. rewrite ltb_spec, leb_spec. apply SFltb_SFleb_false.
Qed.

Lemma geb_ltb_trans (c x y : float) :
  (x >=? c) = true -> (x <? y) = true -> (y >=? c) = true.
Proof.
  unfold geb. rewrite ltb_spec, !leb_spec. apply SFleb_SFltb_trans.
Qed.

Lemma geb_false_mono (c x y : float) :
  (y >=? c) = false -> (x <? y) = true -> (x >=? c) = false.
Proof.
  intros Hy Hlt. destruct (x >=? c) eqn:Hx; [|reflexivity].
  rewrite (geb_ltb_trans c x y Hx Hlt) in Hy. discriminate.
Qed.

Lemma geb_weaken (c1 c2 p : float) :
  (c2 >=? c1) = true -> (p >=? c2) = true -> (p >=? c1) = true.
Proof.
  unfold geb. rewrite !leb_spec. apply SFleb_trans.
Qed.

Lemma geb_false_strengthen (c1 c2 p : float) :
  (c2 >=? c1) = true -> (p >=? c1) = false -> (p >=? c2) = false.
Proof.
  intros Hc Hp. destruct (p >=? c2) eqn:E; [|reflexivity].
  rewrite (geb_weaken c1 c2 p Hc E) in Hp. discriminate.
Qed.

(** ** Severity policy: theorems *)

(** C3: for a probability [p] (in [0,1] or not), the severity is 'critical'
    when p >= 0.9, 'high' when 0.8 <= p < 0.9, 'medium' when 0.6 <= p < 0.8,
    and 'low' in every other case. *)
Theorem determine_severity_tiers (p : float) :
  ((p >=? 0.9) = true -> _determine_severity p = "critical"%string) /\
  ((p >=? 0.8) = true -> (p <? 0.9) = true ->
     _determine_severity p = "high"%string) /\
  ((p >=? 0.6) = true -> (p <? 0.8) = true ->
     _determine_severity p = "medium"%string) /\
  ((p >=? 0.6) = false -> _determine_severity p = "low"%string).
Proof.
  unfold _determine_severity. repeat split.
  - intros ->. reflexivity.
  - intros H8 H9. apply ltb_geb_false in H9. now rewrite H9, H8.
  - intros H6 H8. apply ltb_geb_false in H8.
    rewrite (geb_false_strengthen 0.8 0.9 p eq_refl H8), H8, H6.
    reflexivity.
  - intros H6.
    pose proof (geb_false_strengthen 0.6 0.8 p eq_refl H6) as H8.
    rewrite (geb_false_strengthen 0.8 0.9 p eq_refl H8), H8, H6.
    reflexivity.
Qed.

(** C9: the severity policy is monotonic: when p1 < p2, the tier of p1 is
    not ranked above the tier of p2 in low < medium < high < critical. *)
Theorem determine_severity_monotonic (p1 p2 : float) :
  (p1 <? p2) = true ->
  tier_le (_determine_severity p1) (_determine_severity p2).
Proof.
  intros Hlt. unfold _determine_severity, tier_le.
  destruct (p2 >=? 0.9) eqn:A2.
  { destruct (p1 >=? 0.9); [|destruct (p1 >=? 0.8); [|destruct (p1 >=? 0.6)]];
      do 2 eexists; (split; [reflexivity|split; [reflexivity|lia]]). }
  rewrite (geb_false_mono 0.9 p1 p2 A2 Hlt).
  destruct (p2 >=? 0.8) eqn:B2.
  { destruct (p1 >=? 0.8); [|destruct (p1 >=? 0.6)];
      do 2 eexists; (split; [reflexivity|split; [reflexivity|lia]]). }
  rewrite (geb_false_mono 0.8 p1 p2 B2 Hlt).
  destruct (p2 >=? 0.6) eqn:C2.
  { destruct (p1 >=? 0.6);
      do 2 eexists; (split; [reflexivity|split; [reflexivity|lia]]). }
  rewrite (geb_false_mono 0.6 p1 p2 C2 Hlt).
  do 2 eexists; (split; [reflexivity|split; [reflexivity|lia]]).
Qed.

Lemma determine_severity_tiers_witness :
  _determine_severity 0.85 = "high"%string /\
  _determine_severity 0.3 = "low"%string.
Proof.
  destruct (determine_severity_tiers 0.85) as (_ & Hhigh & _).
  destruct (determine_severity_tiers 0.3) as (_ & _ & _ & Hlow).
  split; [apply Hhigh|apply Hlow]; reflexivity.
Defined.

Lemma determine_severity_monotonic_witness :
  (0.85 <? 0.93) = true /\
  tier_le (_determine_severity 0.85) (_determine_severity 0.93).
Proof.
  split; [reflexivity|].
  apply (determine_severity_monotonic 0.85 0.93). reflexivity.
Defined.

(** ** Sequence construction: [_create_sequences] *)

Lemma slice_length {A} (data : list A) (i n : nat) :
  (i + n <= length data)%nat -> length (slice data i (i + n)) = n.
Proof.
  intros H. unfold slice.
  replace (i + n - i)%nat with n by lia.
  rewrite length_firstn, length_skipn. lia.
Qed.

Lemma slice_nth_error {A} (data : list A) (i n j : nat) :
  (j < n)%nat -> nth_error (slice data i (i + n)) j = nth_error data (i + j).
Proof.
  intros H. unfold slice.
  replace (i + n - i)%nat with n by lia.
  rewrite nth_error_firstn.
  destruct (Nat.ltb_spec j n); [|lia].
  apply nth_error_skipn.
Qed.

(** The loop over [a, a+1, ..., a+n-1] appends one slice and one label per
    index when every label index is in bounds. *)
Lemma create_sequences_loop_seq data labels n : forall a X y,
  (a + n + sequence_length - 1 <= length labels)%nat ->
  exists ys,
    create_sequences_loop data labels (seq a n) X y =
      Ok (X ++ map (fun i => slice data i (i + sequence_length)) (seq a n),
          y ++ ys) /\
    length ys = n /\
    forall j, (j < n)%nat ->
      nth_error ys j = nth_error labels (a + j + sequence_length - 1).
Proof.
  induction n as [|n IH]; intros a X y Hb; simpl.
  - exists []. rewrite !app_nil_r. repeat split; intros; lia.
  - destruct (nth_error labels (a + sequence_length - 1)) as [label|] eqn:E.
    2:{ apply nth_error_None in E. unfold sequence_length in *. lia. }
    destruct (IH (S a) (X ++ [slice data a (a + sequence_length)])
                (y ++ [label])) as (ys & Heq & Hlen & Hnth).
    { lia. }
    exists (label :: ys). rewrite Heq, <- !app_assoc. simpl.
    repeat split; [lia|].
    intros [|j] Hj; simpl.
    + rewrite Nat.add_0_r. now rewrite E.
    + rewrite Hnth by lia. f_equal. lia.
Qed.

(** C6: for L >= 24 feature rows with L labels, [_create_sequences]
    returns L - 24 + 1 sequences; sequence [i] is the 24 consecutive rows
    [data[i], ..., data[i+23]] in their order, and its label is the label
    of its last row, [labels[i+23]]. *)
Theorem create_sequences_overlapping (data : list (list float))
  (labels : list Z) :
  (sequence_length <= length data)%nat ->
  length labels = length data ->
  exists X y,
    _create_sequences data labels = Ok (X, y) /\
    length X = (length data - sequence_length + 1)%nat /\
    length y = length X /\
    forall i, (i < length X)%nat ->
      exists s,
        nth_error X i = Some s /\
        length s = sequence_length /\
        (forall j, (j < sequence_length)%nat ->
           nth_error s j = nth_error data (i + j)) /\
        nth_error y i = nth_error labels (i + sequence_length - 1) /\
        nth_error s (sequence_length - 1)
          = nth_error data (i + sequence_length - 1).
Proof.
  intros HL Hlab. unfold _create_sequences, range.
  set (n := Z.to_nat (Z.of_nat (length data) - Z.of_nat sequence_length + 1)).
  assert (Hn : n = (length data - sequence_length + 1)%nat) by (subst n; lia).
  destruct (create_sequences_loop_seq data labels n 0 [] [])
    as (ys & Heq & Hlen & Hnth).
  { unfold sequence_length in *. lia. }
  simpl in Heq.
  eexists _, ys. split; [exact Heq|].
  rewrite length_map, length_seq. repeat split; try lia.
  intros i Hi.
  exists (slice data i (i + sequence_length)).
  split.
  { rewrite nth_error_map, nth_error_seq.
    destruct (Nat.ltb_spec i n); [reflexivity|lia]. }
  split.
  { apply slice_length. unfold sequence_length in *. lia. }
  split.
  { intros j Hj. now apply slice_nth_error. }
  split.
  { rewrite Hnth by lia. reflexivity. }
  rewrite slice_nth_error by (unfold sequence_length; lia).
  f_equal. unfold sequence_length. lia.
Qed.

Lemma create_sequences_overlapping_witness :
  exists X y,
    _create_sequences rows25 labels25 = Ok (X, y) /\
    length X = 2%nat /\ length y = 2%nat.
Proof.
  destruct (create_sequences_overlapping rows25 labels25)
    as (X & y & Heq & HX & Hy & _).
  - vm_compute. lia.
  - reflexivity.
  - exists X, y. split; [exact Heq|]. split; [exact HX|].
    rewrite Hy. exact HX.
Defined.

(** ** NaN and the fill *)

Lemma is_nan_spec (x : float) : Prim2SF x = S754_nan -> is_nan x = true.
Proof.
  intros H. unfold is_nan. rewrite eqb_spec, H. reflexivity.
Qed.

Lemma sub_nan_r (x : float) : is_nan (x - nan) = true.
Proof.
  apply is_nan_spec. rewrite sub_spec.
  change (Prim2SF nan) with S754_nan.
  unfold SF64sub, SFsub. now destruct (Prim2SF x).
Qed.

Lemma pct_nan_r (x : float) : is_nan (x / nan - 1) = true.
Proof.
  apply is_nan_spec. rewrite sub_spec, div_spec.
  change (Prim2SF nan) with S754_nan.
  unfold SF64div, SFdiv.
  destruct (Prim2SF x); reflexivity.
Qed.

Lemma fillna_nan (v x : float) : is_nan x = true -> fillna v x = v.
Proof. unfold fillna. now intros ->. Qed.

Lemma fillna_not_nan (x : float) : is_nan (fillna 0 x) = false.
Proof.
  unfold fillna. destruct (is_nan x) eqn:E; [reflexivity|exact E].
Qed.

(** ** Sorting keeps every row *)

Lemma insert_by_length {A} (le : A -> A -> bool) (x : A) (l : list A) :
  length (insert_by le x l) = S (length l).
Proof.
  induction l as [|h t IH]; simpl; [reflexivity|].
  destruct (le h x); simpl; now rewrite ?IH.
Qed.

Lemma sort_by_length {A} (le : A -> A -> bool) (l : list A) :
  length (sort_by le l) = length l.
Proof.
  unfold sort_by.
  assert (G : forall acc,
             length (fold_left (fun acc x => insert_by le x acc) l acc)
             = (length l + length acc)%nat).
  { induction l as [|h t IH]; intros acc; simpl; [reflexivity|].
    rewrite IH, insert_by_length. lia. }
  rewrite G. simpl. lia.
Qed.

(** ** Feature engineering: [_engineer_features] *)

(** From here on the theorems hold for every pair of rolling kernels. *)

Section Generic.

Context {K : RollingKernels}.

Lemma nth_error_map_seq {A} (f : nat -> A) (n k : nat) :
  (k < n)%nat -> nth_error (map f (seq 0 n)) k = Some (f k).
Proof.
  intros H. rewrite nth_error_map, nth_error_seq.
  destruct (Nat.ltb_spec k n); [reflexivity|lia].
Qed.


(** A call that returned has passed the check of the column and the
    parse of the timestamps. *)
Ltac engineer_features_inv H :=
  unfold _engineer_features in H;
  destruct (negb (existsb _ _)); [discriminate H|];
  destruct (negb (to_datetime_ok _)); [discriminate H|].

Lemma engineer_features_length df feats :
  _engineer_features df = Ok feats -> length feats = length df.
Proof.
  intros Hf. engineer_features_inv Hf.
  injection Hf as <-. rewrite length_map, length_seq.
  apply sort_by_length.
Qed.








(** X7: at the first point of the series both differences are 0.0: the
    predecessor that [shift] supplies is NaN, and NaN is filled. *)
Lemma engineer_features_first_point (df : list Reading.t)
  (f : Features.t) (feats : list Features.t) :
  _engineer_features df = Ok (f :: feats) ->
  Features.value_diff f = 0 /\ Features.value_change_rate f = 0.
Proof.
  intros Hf. engineer_features_inv Hf.
  destruct (sort_values df) as [|r rs] eqn:E; [discriminate|].
  cbn [length seq map] in Hf. injection Hf as <- _.
  cbn [Features.value_diff Features.value_change_rate].
  unfold diff, pct_change, zip_with.
  cbn [map shift combine nth fst snd].
  split.
  - rewrite (fillna_nan 0 (_ - nan)) by apply sub_nan_r. reflexivity.
  - rewrite (fillna_nan 0 (_ / nan - 1)) by apply pct_nan_r. reflexivity.
Qed.

(** ** Scoring: [predict_anomaly] *)

Lemma features_values_length (df : list Features.t) :
  forallb (fun row => (length row =? 7)%nat) (map Features.values df) = true.
Proof. induction df as [|f df IH]; simpl; [reflexivity|exact IH]. Qed.

Lemma transform_ok (sc : StandardScaler.t) (df : list Features.t) :
  df <> [] ->
  length (StandardScaler.mean_ sc) = 7%nat ->
  existsb (existsb is_infinity) (map Features.values df) = false ->
  StandardScaler.transform sc (map Features.values df)
    = Ok (map (StandardScaler.transform_row sc) (map Features.values df)).
Proof.
  intros Hne Hm Hinf. unfold StandardScaler.transform.
  destruct df as [|f df]; [congruence|].
  cbn [map]. cbn [map] in Hinf.
  rewrite Hm, Hinf.
  change (forallb _ (Features.values f :: map Features.values df))
    with (forallb (fun row => (length row =? 7)%nat)
            (map Features.values (f :: df))).
  rewrite features_values_length. reflexivity.
Qed.

Lemma transform_infinity (sc : StandardScaler.t) (df : list Features.t) :
  df <> [] ->
  length (StandardScaler.mean_ sc) = 7%nat ->
  existsb (existsb is_infinity) (map Features.values df) = true ->
  StandardScaler.transform sc (map Features.values df)
    = Raise (ValueError "Input X contains infinity").
Proof.
  intros Hne Hm Hinf. unfold StandardScaler.transform.
  destruct df as [|f df]; [congruence|].
  cbn [map]. cbn [map] in Hinf.
  rewrite Hm, Hinf.
  change (forallb _ (Features.values f :: map Features.values df))
    with (forallb (fun row => (length row =? 7)%nat)
            (map Features.values (f :: df))).
  rewrite features_values_length. reflexivity.
Qed.

Lemma predict_anomaly_ready art sensor_data self m sc :
  ready art self = Some (m, sc) ->
  fst (predict_anomaly art sensor_data self) = score_with m sc sensor_data.
Proof.
  unfold ready, predict_anomaly, score_with, bind, get, lift, ret, load_model.
  destruct self as [[m0|] [s0|]], art as [[mf|] [sf|]]; simpl;
    intros [= <- <-] || discriminate;
    destruct (_engineer_features sensor_data); simpl; try reflexivity;
    destruct (StandardScaler.transform _ _); simpl; try reflexivity;
    destruct (_ <? _)%nat; reflexivity.
Qed.

Lemma predict_anomaly_not_ready art sensor_data self :
  ready art self = None ->
  exists what,
    fst (predict_anomaly art sensor_data self) = Raise (LoadError what).
Proof.
  unfold ready, predict_anomaly, bind, get, lift, ret, load_model.
  destruct self as [[m0|] [s0|]], art as [[mf|] [sf|]]; simpl;
    intros H; try discriminate; eexists; reflexivity.
Qed.

Lemma engineer_features_nonempty df feats :
  _engineer_features df = Ok feats -> feats <> [].
Proof.
  intros H. pose proof (engineer_features_length _ _ H) as Hl.
  unfold _engineer_features in H.
  destruct df as [|r df]; [discriminate|].
  destruct feats; [discriminate|congruence].
Qed.

(** C5: the value_change_rate of a point whose preceding value is zero is
    not 0.0 when the point itself is not zero: for the readings 0.0 and
    then 5.0 the second point gets 5.0 / 0.0 - 1 = +infinity, which
    [fillna] leaves in the features, and the scaler then rejects the
    frame.  The first point has value_diff and value_change_rate 0.0. *)
Theorem change_rate_after_zero_is_infinite :
  exists f0 f1,
    _engineer_features zero_then_five = Ok [f0; f1] /\
    Features.value f0 = 0 /\
    Features.value_diff f0 = 0 /\
    Features.value_change_rate f0 = 0 /\
    Features.value_change_rate f1 = infinity /\
    Features.value_change_rate f1 <> 0 /\
    fst (predict_anomaly no_artifacts zero_then_five (loaded 0.97))
      = Raise (ValueError "Input X contains infinity").
Proof.
  assert (E : exists f0 f1,
             _engineer_features zero_then_five = Ok [f0; f1] /\
             Features.value f0 = 0 /\
             Features.value_diff f0 = 0 /\
             Features.value_change_rate f0 = 0 /\
             Features.value_change_rate f1 = infinity).
  { eexists _, _. split; [vm_compute; reflexivity|].
    cbn [Features.value Features.value_diff Features.value_change_rate].
    repeat split. }
  destruct E as (f0 & f1 & Hf & Hv & Hd & Hc & Hi).
  exists f0, f1. do 5 (split; [assumption|]).
  split; [rewrite Hi; discriminate|].
  rewrite (predict_anomaly_ready no_artifacts zero_then_five (loaded 0.97)
             (constant_model 0.97) unit_scaler eq_refl).
  unfold score_with. rewrite Hf.
  rewrite (transform_infinity unit_scaler [f0; f1]);
    [reflexivity|discriminate|reflexivity|].
  apply existsb_exists. exists (Features.values f1).
  split; [right; left; reflexivity|].
  apply existsb_exists. exists (Features.value_change_rate f1).
  split; [|rewrite Hi; reflexivity].
  unfold Features.values. do 6 right. left. reflexivity.
Qed.

(** C1, as amended: for a series of fewer than 24 readings,
    [predict_anomaly] returns (False, 0.0) whenever the steps before its
    length check succeed: a model and a scaler (fitted on the seven
    features) are loaded or can be loaded, feature engineering returns
    (the frame has a timestamp column and [pd.to_datetime] parses it),
    and no engineered feature is infinite. *)
Theorem predict_anomaly_insufficient_history (art : Artifacts.t)
  (sensor_data : list Reading.t) (self : ModelState.t)
  (m : KerasModel.t) (sc : StandardScaler.t) (df : list Features.t) :
  (length sensor_data < sequence_length)%nat ->
  ready art self = Some (m, sc) ->
  length (StandardScaler.mean_ sc) = 7%nat ->
  _engineer_features sensor_data = Ok df ->
  existsb (existsb is_infinity) (map Features.values df) = false ->
  fst (predict_anomaly art sensor_data self) = Ok (false, 0).
Proof.
  intros Hlen Hready Hsc Hdf Hinf.
  rewrite (predict_anomaly_ready _ _ _ _ _ Hready).
  unfold score_with. rewrite Hdf.
  rewrite (transform_ok sc df (engineer_features_nonempty _ _ Hdf) Hsc Hinf).
  rewrite !length_map, (engineer_features_length _ _ Hdf).
  destruct (Nat.ltb_spec (length sensor_data) sequence_length);
    [reflexivity|lia].
Qed.

(** The boolean verdict of [predict_anomaly] is the comparison of the score
    it returns with 0.5, also for the default (False, 0.0). *)
Lemma predict_anomaly_verdict art sensor_data self b s :
  fst (predict_anomaly art sensor_data self) = Ok (b, s) ->
  b = (s >? 0.5).
Proof.
  destruct (ready art self) as [[m sc]|] eqn:R.
  - rewrite (predict_anomaly_ready _ _ _ _ _ R). unfold score_with.
    destruct (_engineer_features sensor_data); [|discriminate].
    destruct (StandardScaler.transform _ _); [|discriminate].
    destruct (_ <? _)%nat; intros [= <- <-]; reflexivity.
  - destruct (predict_anomaly_not_ready art sensor_data self R) as (w & ->).
    discriminate.
Qed.

(** ** Detection: [detect_anomaly] *)

Lemma detect_anomaly_ok settings art utcnow cur hist self b s :
  fst (predict_anomaly art (hist ++ [cur]) self) = Ok (b, s) ->
  DetectionResult.is_anomaly
    (fst (detect_anomaly settings art utcnow cur hist self))
    = b && (s >=? Settings.MODEL_ACCURACY_THRESHOLD settings) /\
  DetectionResult.anomaly_score
    (fst (detect_anomaly settings art utcnow cur hist self)) = s.
Proof.
  unfold detect_anomaly.
  destruct (predict_anomaly art (hist ++ [cur]) self) as [[[b' s']|e] self'];
    simpl; [|discriminate].
  intros [= -> ->].
  destruct (b && _); split; reflexivity.
Qed.

Lemma detect_anomaly_raise settings art utcnow cur hist self e :
  fst (predict_anomaly art (hist ++ [cur]) self) = Raise e ->
  fst (detect_anomaly settings art utcnow cur hist self)
    = DetectionResult.mk false 0 "error" (DetectionError e) None None None.
Proof.
  unfold detect_anomaly.
  destruct (predict_anomaly art (hist ++ [cur]) self) as [[[b' s']|e'] self'];
    simpl; [discriminate|].
  now intros [= ->].
Qed.

(** The alerts table after [process_sensor_data_async]: one more row when
    the detection result reports an anomaly, the same rows otherwise. *)
Lemma process_sensor_data_async_alerts settings art utcnow sensor_data id w :
  let historical_data :=
    fst (get_historical_sensor_data (Reading.sensor_id sensor_data) 24 utcnow
           (World.db w) (World.cache w)) in
  let r := fst (detect_anomaly settings art utcnow sensor_data
                  historical_data (World.service w)) in
  length (Database.anomaly_alerts
            (World.db (process_sensor_data_async settings art utcnow
                         sensor_data id w)))
  = (length (Database.anomaly_alerts (World.db w))
     + if DetectionResult.is_anomaly r then 1 else 0)%nat.
Proof.
  unfold process_sensor_data_async.
  destruct (get_historical_sensor_data _ _ _ _ _) as [hist cache]. simpl.
  destruct (detect_anomaly _ _ _ _ _ _) as [r self']. simpl.
  destruct (DetectionResult.is_anomaly r); simpl.
  - rewrite length_app. reflexivity.
  - lia.
Qed.

(** The tables after [process_sensor_data_async]. *)
Lemma process_sensor_data_async_db settings art utcnow sensor_data id w :
  let historical_data :=
    fst (get_historical_sensor_data (Reading.sensor_id sensor_data) 24 utcnow
           (World.db w) (World.cache w)) in
  let r := fst (detect_anomaly settings art utcnow sensor_data
                  historical_data (World.service w)) in
  World.db (process_sensor_data_async settings art utcnow sensor_data id w)
  = if DetectionResult.is_anomaly r
    then create_anomaly_alert utcnow sensor_data r
           (update_sensor_anomaly_status id r (World.db w))
    else update_sensor_anomaly_status id r (World.db w).
Proof.
  unfold process_sensor_data_async.
  destruct (get_historical_sensor_data _ _ _ _ _) as [hist cache].
  cbn [fst]. destruct (detect_anomaly _ _ _ _ _ _) as [r self'].
  cbn [fst]. now destruct (DetectionResult.is_anomaly r).
Qed.

(** C2: for a scored reading (one on which [predict_anomaly] returns a
    verdict [b] and a score [s]), [detect_anomaly] reports an anomaly if and
    only if the verdict is anomalous, which is [s > 0.5], and [s] is at or
    above MODEL_ACCURACY_THRESHOLD; the result is not anomalous otherwise;
    and [process_sensor_data_async] adds an alert exactly when the result
    reports an anomaly. *)
Theorem detect_anomaly_alert_iff (settings : Settings.t) (art : Artifacts.t)
  (utcnow : Z) (cur : Reading.t) (hist : list Reading.t)
  (self : ModelState.t) (b : bool) (s : float) :
  fst (predict_anomaly art (hist ++ [cur]) self) = Ok (b, s) ->
  let r := fst (detect_anomaly settings art utcnow cur hist self) in
  let threshold := Settings.MODEL_ACCURACY_THRESHOLD settings in
  b = (s >? 0.5) /\
  (DetectionResult.is_anomaly r = true <->
     (s >? 0.5) = true /\ (s >=? threshold) = true) /\
  (DetectionResult.is_anomaly r = false <->
     (s >? 0.5) = false \/ (s >=? threshold) = false) /\
  (forall (id : nat) (w : World.t),
     World.service w = self ->
     fst (get_historical_sensor_data (Reading.sensor_id cur) 24 utcnow
            (World.db w) (World.cache w)) = hist ->
     (length (Database.anomaly_alerts
                (World.db (process_sensor_data_async settings art utcnow
                             cur id w)))
      = S (length (Database.anomaly_alerts (World.db w)))
      <-> DetectionResult.is_anomaly r = true)).
Proof.
  intros Hp r threshold.
  pose proof (predict_anomaly_verdict _ _ _ _ _ Hp) as Hb.
  destruct (detect_anomaly_ok settings art utcnow cur hist self b s Hp)
    as [Hr _].
  fold r in Hr. fold threshold in Hr. rewrite Hb in Hr.
  split; [exact Hb|]. split; [|split].
  - rewrite Hr. apply andb_true_iff.
  - rewrite Hr. apply andb_false_iff.
  - intros id w Hw Hh.
    rewrite process_sensor_data_async_alerts. cbv zeta.
    rewrite Hh, Hw. fold r.
    destruct (DetectionResult.is_anomaly r); split; intros H;
      try reflexivity; try discriminate; lia.
Qed.

(** C7, as amended: when the model or the scaler is not loaded and its
    artifact cannot be loaded, [detect_anomaly] does not raise and returns,
    for every reading and history, the same record: is_anomaly = False and
    anomaly_score = 0.0, the fields of a non-anomalous result, marked only
    by severity 'error' (not 'normal') and the load failure as message.
    [process_sensor_data_async] reads neither mark: it leaves the tables
    as it does for a non-anomalous result of score 0.0, with no alert. *)
Theorem detect_anomaly_artifact_missing (settings : Settings.t)
  (art : Artifacts.t) (utcnow : Z) (cur : Reading.t)
  (hist : list Reading.t) (self : ModelState.t) :
  ready art self = None ->
  exists what,
    fst (detect_anomaly settings art utcnow cur hist self)
      = DetectionResult.mk false 0 "error" (DetectionError (LoadError what))
          None None None /\
    DetectionResult.severity
      (fst (detect_anomaly settings art utcnow cur hist self))
      <> "normal"%string /\
    forall (id : nat) (w : World.t),
      World.service w = self ->
      fst (get_historical_sensor_data (Reading.sensor_id cur) 24 utcnow
             (World.db w) (World.cache w)) = hist ->
      World.db (process_sensor_data_async settings art utcnow cur id w)
      = update_sensor_anomaly_status id
          (DetectionResult.mk false 0 "normal" NoAnomalyDetected
             None None None)
          (World.db w).
Proof.
  intros Hr.
  destruct (predict_anomaly_not_ready art (hist ++ [cur]) self Hr)
    as (what & Hp).
  exists what.
  pose proof (detect_anomaly_raise settings art utcnow cur hist self _ Hp)
    as Hrec.
  rewrite Hrec.
  split; [reflexivity|]. split; [discriminate|].
  intros id w Hw Hh.
  rewrite process_sensor_data_async_db. cbv zeta.
  rewrite Hh, Hw, Hrec. reflexivity.
Qed.

(** C10: when a step of the scoring raises, [detect_anomaly] returns a
    record with is_anomaly = False, anomaly_score = 0.0 and severity
    'error'; when the scoring succeeds and the result is not anomalous the
    severity is 'normal'; neither string is in the severity enum
    low, medium, high, critical. *)
Theorem detect_anomaly_error_branch (settings : Settings.t)
  (art : Artifacts.t) (utcnow : Z) (cur : Reading.t)
  (hist : list Reading.t) (self : ModelState.t) :
  let r := fst (detect_anomaly settings art utcnow cur hist self) in
  (forall e,
     fst (predict_anomaly art (hist ++ [cur]) self) = Raise e ->
     DetectionResult.is_anomaly r = false /\
     DetectionResult.anomaly_score r = 0 /\
     DetectionResult.severity r = "error"%string /\
     DetectionResult.message r = DetectionError e) /\
  (forall b s,
     fst (predict_anomaly art (hist ++ [cur]) self) = Ok (b, s) ->
     DetectionResult.is_anomaly r = false ->
     DetectionResult.severity r = "normal"%string) /\
  severity_in_enum "error" = false /\
  severity_in_enum "normal" = false.
Proof.
  intros r. split; [|split; [|split; reflexivity]].
  - intros e He. subst r.
    rewrite (detect_anomaly_raise settings art utcnow cur hist self e He).
    repeat split.
  - intros b s Hp. subst r. unfold detect_anomaly.
    destruct (predict_anomaly art (hist ++ [cur]) self)
      as [[[b' s']|e'] self']; simpl in *; [|discriminate].
    destruct (b' && _); simpl; [discriminate|reflexivity].
Qed.

(** ** The window of a sensor: [create_sensor_data] and
    [get_historical_sensor_data] *)

Lemma sort_by_snoc {A} (le : A -> A -> bool) (l : list A) (x : A) :
  sort_by le (l ++ [x]) = insert_by le x (sort_by le l).
Proof. unfold sort_by. now rewrite fold_left_app. Qed.

Lemma filter_insert_by_length {A} (le : A -> A -> bool) (p : A -> bool)
  (x : A) (l : list A) :
  length (filter p (insert_by le x l))
  = ((if p x then 1 else 0) + length (filter p l))%nat.
Proof.
  induction l as [|h t IH]; simpl.
  - destruct (p x); reflexivity.
  - destruct (le h x); simpl.
    + destruct (p h); simpl; rewrite IH; lia.
    + destruct (p x); reflexivity.
Qed.

Lemma select_since_snoc sensor_id start_time table d :
  String.eqb (SensorData.sensor_id d) sensor_id = true ->
  (start_time <= SensorData.timestamp d)%Z ->
  select_since sensor_id start_time (table ++ [d])
  = insert_by sensor_data_le d (select_since sensor_id start_time table).
Proof.
  intros Hid Hts. unfold select_since.
  rewrite filter_app. cbn [filter]. rewrite Hid.
  destruct (Z.leb_spec start_time (SensorData.timestamp d)); [|lia].
  cbn [andb]. apply sort_by_snoc.
Qed.

Lemma entries_at_to_dict ts (rows : list SensorData.t) :
  entries_at ts (map to_dict rows)
  = length (filter (fun d => (SensorData.timestamp d =? ts)%Z) rows).
Proof.
  unfold entries_at.
  induction rows as [|d rows IH]; simpl; [reflexivity|].
  destruct (SensorData.timestamp d =? ts)%Z; simpl; now rewrite IH.
Qed.

Lemma get_historical_miss sensor_id hours utcnow db cache :
  Cache.cache_get (sensor_id, hours) utcnow cache = None ->
  fst (get_historical_sensor_data sensor_id hours utcnow db cache)
  = map to_dict
      (select_since sensor_id (utcnow - hours * usec_per_hour)
         (Database.sensor_data db)).
Proof.
  unfold get_historical_sensor_data. now intros ->.
Qed.

(** C8, as amended: appending the same reading twice with the same
    timestamp stores two rows, and a later get of the window that reads
    the table (nothing cached, the timestamp inside the horizon) holds one
    more entry for that timestamp, and one more entry in all, than it does
    after the first append. *)
Theorem append_twice_adds_entry (ts : Z) (reading : SensorDataCreate.t)
  (db : Database.t) (hours utcnow : Z) (cache : Cache.t) :
  let sensor_id := SensorDataCreate.sensor_id reading in
  let db1 := snd (create_sensor_data ts reading db) in
  let db2 := snd (create_sensor_data ts reading db1) in
  let window1 :=
    fst (get_historical_sensor_data sensor_id hours utcnow db1 cache) in
  let window2 :=
    fst (get_historical_sensor_data sensor_id hours utcnow db2 cache) in
  Cache.cache_get (sensor_id, hours) utcnow cache = None ->
  (utcnow - hours * usec_per_hour <= ts)%Z ->
  entries_at ts window2 = S (entries_at ts window1) /\
  length window2 = S (length window1) /\
  (2 <= entries_at ts window2)%nat.
Proof.
  intros sensor_id db1 db2 window1 window2 Hmiss Hts.
  subst window1 window2.
  rewrite !(get_historical_miss _ _ _ _ _ Hmiss).
  subst db2. cbn [create_sensor_data snd Database.sensor_data].
  set (table1 := Database.sensor_data db1).
  set (d2 := SensorData.mk (S (length table1)) _ _ ts _ _ _ false None).
  assert (Hsel : select_since sensor_id (utcnow - hours * usec_per_hour)
                   (table1 ++ [d2])
                 = insert_by sensor_data_le d2
                     (select_since sensor_id
                        (utcnow - hours * usec_per_hour) table1)).
  { apply select_since_snoc; [apply String.eqb_refl|exact Hts]. }
  rewrite Hsel, !entries_at_to_dict, !length_map.
  rewrite filter_insert_by_length, insert_by_length.
  cbn [SensorData.timestamp d2]. rewrite Z.eqb_refl.
  assert (H1 : (1 <= length
                  (filter (fun d => (SensorData.timestamp d =? ts)%Z)
                     (select_since sensor_id
                        (utcnow - hours * usec_per_hour) table1)))%nat).
  { subst table1 db1. cbn [create_sensor_data snd Database.sensor_data].
    set (d1 := SensorData.mk _ _ _ ts _ _ _ false None).
    rewrite (select_since_snoc sensor_id _ _ d1);
      [|apply String.eqb_refl|exact Hts].
    rewrite filter_insert_by_length.
    cbn [SensorData.timestamp d1]. rewrite Z.eqb_refl. lia. }
  repeat split; try reflexivity. lia.
Qed.

(** ** Feature engineering: further properties *)

(** Every feature row is built from the columns at one index. *)
Lemma engineer_features_In df feats f :
  _engineer_features df = Ok feats -> In f feats ->
  exists v h d m s vd vc,
    f = Features.mk (fillna 0 v) (fillna 0 h) (fillna 0 d) (fillna 0 m)
          (fillna 0 s) (fillna 0 vd) (fillna 0 vc).
Proof.
  intros Hf Hin. engineer_features_inv Hf.
  injection Hf as <-. apply in_map_iff in Hin.
  destruct Hin as (i & <- & _). repeat eexists.
Qed.

(** X2: no engineered feature is NaN: the final [fillna(0)] covers each of
    the seven columns of every row. *)
Theorem engineer_features_no_nan (df : list Reading.t)
  (feats : list Features.t) (f : Features.t) :
  _engineer_features df = Ok feats ->
  In f feats ->
  forallb not_nan (Features.values f) = true.
Proof.
  intros Hf Hin.
  destruct (engineer_features_In _ _ _ Hf Hin)
    as (v & h & d & m & s & vd & vc & ->).
  unfold Features.values, not_nan. cbn [forallb Features.value Features.hour
    Features.day_of_week Features.rolling_mean_24h Features.rolling_std_24h
    Features.value_diff Features.value_change_rate].
  rewrite !fillna_not_nan. reflexivity.
Qed.

Lemma of_Z_small_not_nan (h : Z) :
  (0 <= h < 24)%Z -> is_nan (of_Z h) = false.
Proof.
  intros [H0 H1].
  destruct h as [|p|p]; [reflexivity| |lia].
  do 5 (try (destruct p as [p|p|]; try lia; try reflexivity)).
Qed.

Lemma nth_map_nth_error {A} (g : A -> float) (l : list A) (k : nat) (a : A) :
  nth_error l k = Some a -> nth k (map g l) nan = g a.
Proof.
  intros H. apply nth_error_nth. now apply map_nth_error.
Qed.

(** X3: feature row k belongs to the k-th reading in timestamp order: it
    carries that reading's value, and the hour (0..23) and day of week
    (0..6, Monday 0) of its timestamp, both 0.0 for a reading without
    timestamp. *)
Theorem engineer_features_row (df : list Reading.t)
  (feats : list Features.t) (k : nat) (f : Features.t) :
  _engineer_features df = Ok feats ->
  nth_error feats k = Some f ->
  exists r,
    nth_error (sort_values df) k = Some r /\
    Features.value f = fillna 0 (Reading.value r) /\
    match Reading.timestamp r with
    | Some t =>
        exists h d,
          (0 <= h <= 23)%Z /\ (0 <= d <= 6)%Z /\
          h = ((t / usec_per_hour) mod 24)%Z /\
          d = ((t / usec_per_day + 3) mod 7)%Z /\
          Features.hour f = of_Z h /\
          Features.day_of_week f = of_Z d
    | None => Features.hour f = 0 /\ Features.day_of_week f = 0
    end.
Proof.
  intros Hf Hk.
  pose proof (engineer_features_length _ _ Hf) as Hlen.
  assert (Hkl : (k < length (sort_values df))%nat).
  { unfold sort_values. rewrite sort_by_length, <- Hlen.
    apply nth_error_Some. congruence. }
  destruct (nth_error (sort_values df) k) as [r|] eqn:Hr.
  2:{ apply nth_error_None in Hr. lia. }
  exists r. split; [reflexivity|].
  engineer_features_inv Hf.
  injection Hf as <-.
  rewrite nth_error_map_seq in Hk by exact Hkl.
  injection Hk as <-.
  cbn [Features.value Features.hour Features.day_of_week].
  rewrite !(nth_map_nth_error _ _ _ _ Hr).
  split; [reflexivity|].
  destruct (Reading.timestamp r) as [t|]; cbn [dt_hour dt_dayofweek].
  - pose proof (Z.mod_pos_bound (t / usec_per_hour) 24 ltac:(lia)) as Hh.
    pose proof (Z.mod_pos_bound (t / usec_per_day + 3) 7 ltac:(lia)) as Hd.
    eexists _, _.
    split; [|split; [|split; [reflexivity|split; [reflexivity|]]]];
      try lia.
    unfold fillna.
    rewrite !of_Z_small_not_nan by lia. split; reflexivity.
  - split; reflexivity.
Qed.

Lemma nth_error_zip_with {A B C} (g : A -> B -> C) (xs : list A)
  (ys : list B) (k : nat) (a : A) (b : B) :
  nth_error xs k = Some a -> nth_error ys k = Some b ->
  nth_error (zip_with g xs ys) k = Some (g a b).
Proof.
  unfold zip_with. revert ys k.
  induction xs as [|x xs IH]; intros [|y ys] [|k]; simpl;
    try discriminate.
  - now intros [= ->] [= ->].
  - apply IH.
Qed.

Lemma nth_error_removelast {A} (xs : list A) (k : nat) :
  (S k < length xs)%nat -> nth_error (removelast xs) k = nth_error xs k.
Proof.
  revert k. induction xs as [|x xs IH]; intros k H; [simpl in H; lia|].
  destruct xs as [|y ys]; [simpl in H; lia|].
  destruct k as [|k]; [reflexivity|].
  change (nth_error (removelast (y :: ys)) k = nth_error (y :: ys) k).
  apply IH. simpl in *. lia.
Qed.

Lemma nth_error_shift (xs : list float) (k : nat) :
  (S k < length xs)%nat -> nth_error (shift xs) (S k) = nth_error xs k.
Proof.
  intros H. unfold shift. destruct xs as [|x xs]; [simpl in H; lia|].
  cbn [nth_error]. now apply nth_error_removelast.
Qed.

Lemma fillna_idem (x : float) : fillna 0 (fillna 0 x) = fillna 0 x.
Proof.
  unfold fillna. destruct (is_nan x) eqn:E; [reflexivity|].
  now rewrite E.
Qed.

Lemma value_diff_at (df : list Reading.t)
  (feats : list Features.t) (k : nat) (f : Features.t) (v prev : float) :
  _engineer_features df = Ok feats ->
  nth_error feats (S k) = Some f ->
  nth_error (sorted_values df) (S k) = Some v ->
  nth_error (sorted_values df) k = Some prev ->
  Features.value_diff f = fillna 0 (v - prev).
Proof.
  intros Hf Hk Hv Hp.
  pose proof (engineer_features_length _ _ Hf) as Hlen.
  assert (Hkl : (S k < length (sort_values df))%nat).
  { unfold sort_values. rewrite sort_by_length, <- Hlen.
    apply nth_error_Some. congruence. }
  engineer_features_inv Hf.
  injection Hf as <-.
  rewrite nth_error_map_seq in Hk by exact Hkl.
  injection Hk as <-. cbn [Features.value_diff].
  fold (sorted_values df).
  assert (Hs : (S k < length (sorted_values df))%nat).
  { unfold sorted_values. now rewrite length_map. }
  rewrite (nth_map_nth_error (fillna 0) (diff (sorted_values df)) (S k)
             (v - prev)).
  - apply fillna_idem.
  - unfold diff. apply nth_error_zip_with; [exact Hv|].
    rewrite nth_error_shift by exact Hs. exact Hp.
Qed.

(** X5: from the second point on, value_diff is the difference between
    the value of the point and the value of the point just before it in
    timestamp order, 0.0 when that difference is NaN. *)
Theorem value_diff_previous_point (df : list Reading.t)
  (feats : list Features.t) (k : nat) (f : Features.t) (v prev : float) :
  _engineer_features df = Ok feats ->
  nth_error feats (S k) = Some f ->
  nth_error (sorted_values df) (S k) = Some v ->
  nth_error (sorted_values df) k = Some prev ->
  Features.value_diff f = fillna 0 (v - prev).
Proof.
  intros Hf Hk Hv Hp.
  pose proof (engineer_features_length _ _ Hf) as Hlen.
  assert (Hkl : (S k < length (sort_values df))%nat).
  { unfold sort_values. rewrite sort_by_length, <- Hlen.
    apply nth_error_Some. congruence. }
  engineer_features_inv Hf.
  injection Hf as <-.
  rewrite nth_error_map_seq in Hk by exact Hkl.
  injection Hk as <-. cbn [Features.value_diff].
  fold (sorted_values df).
  assert (Hs : (S k < length (sorted_values df))%nat).
  { unfold sorted_values. now rewrite length_map. }
  rewrite (nth_map_nth_error (fillna 0) (diff (sorted_values df)) (S k)
             (v - prev)).
  - apply fillna_idem.
  - unfold diff. apply nth_error_zip_with; [exact Hv|].
    rewrite nth_error_shift by exact Hs. exact Hp.
Qed.

(** ** Division by a zero predecessor *)

Lemma eqb_zero_inv (x : float) :
  (x =? 0) = true -> exists s, Prim2SF x = S754_zero s.
Proof.
  rewrite eqb_spec. change (Prim2SF 0) with (S754_zero false).
  unfold SFeqb, SFcompare.
  destruct (Prim2SF x) as [s|s| |s m e]; try discriminate.
  - intros _. now exists s.
  - destruct s; discriminate.
  - destruct s; discriminate.
Qed.

Lemma nonzero_not_nan_inv (x : float) :
  is_nan x = false -> (x =? 0) = false ->
  (exists s, Prim2SF x = S754_infinity s) \/
  (exists s m e, Prim2SF x = S754_finite s m e).
Proof.
  unfold is_nan. rewrite !eqb_spec.
  change (Prim2SF 0) with (S754_zero false).
  destruct (Prim2SF x) as [s|s| |s m e]; simpl; try discriminate.
  - intros _ _. left. now exists s.
  - intros _ _. right. now exists s, m, e.
Qed.

Lemma is_infinity_spec (x : float) (s : bool) :
  Prim2SF x = S754_infinity s -> is_infinity x = true.
Proof.
  intros H. unfold is_infinity. rewrite eqb_spec, abs_spec, H.
  reflexivity.
Qed.

Lemma pct_zero_predecessor_infinite (x z : float) :
  is_nan x = false -> (x =? 0) = false -> (z =? 0) = true ->
  is_infinity (x / z - 1) = true.
Proof.
  intros Hn Hx Hz.
  destruct (eqb_zero_inv z Hz) as (sz & Ez).
  assert (E : exists s, Prim2SF (x / z - 1) = S754_infinity s).
  { rewrite sub_spec, div_spec, Ez.
    change (Prim2SF 1) with (S754_finite false 4503599627370496 (-52)).
    destruct (nonzero_not_nan_inv x Hn Hx) as [(s & ->)|(s & m & e & ->)];
      eexists; reflexivity. }
  destruct E as (s & E). exact (is_infinity_spec _ _ E).
Qed.

Lemma pct_zero_over_zero_nan (x z : float) :
  (x =? 0) = true -> (z =? 0) = true -> is_nan (x / z - 1) = true.
Proof.
  intros Hx Hz.
  destruct (eqb_zero_inv x Hx) as (sx & Ex).
  destruct (eqb_zero_inv z Hz) as (sz & Ez).
  apply is_nan_spec. rewrite sub_spec, div_spec, Ex, Ez. reflexivity.
Qed.

Lemma is_infinity_not_nan (x : float) :
  is_infinity x = true -> is_nan x = false.
Proof.
  unfold is_infinity, is_nan. rewrite !eqb_spec, abs_spec.
  change (Prim2SF infinity) with (S754_infinity false).
  destruct (Prim2SF x) as [s|s| |s m e]; simpl; try discriminate;
    destruct s; try discriminate; reflexivity.
Qed.

Lemma forallb_nth_error {A} (p : A -> bool) (l : list A) (k : nat) (a : A) :
  forallb p l = true -> nth_error l k = Some a -> p a = true.
Proof.
  intros H Hk. rewrite forallb_forall in H.
  apply H. eapply nth_error_In. exact Hk.
Qed.

(** X6: when no value of the series is NaN, the value_change_rate of a
    point whose preceding value is zero is 0.0 if the point is zero too,
    and is infinite, hence not 0.0, for every other value of the point. *)
Theorem change_rate_zero_predecessor (df : list Reading.t)
  (feats : list Features.t) (k : nat) (f : Features.t) (v prev : float) :
  _engineer_features df = Ok feats ->
  nth_error feats (S k) = Some f ->
  forallb not_nan (sorted_values df) = true ->
  nth_error (sorted_values df) (S k) = Some v ->
  nth_error (sorted_values df) k = Some prev ->
  (prev =? 0) = true ->
  Features.value_change_rate f = fillna 0 (v / prev - 1) /\
  ((v =? 0) = true -> Features.value_change_rate f = 0) /\
  ((v =? 0) = false ->
     is_infinity (Features.value_change_rate f) = true /\
     Features.value_change_rate f <> 0).
Proof.
  intros Hf Hk Hnn Hv Hp Hz.
  pose proof (engineer_features_length _ _ Hf) as Hlen.
  assert (Hkl : (S k < length (sort_values df))%nat).
  { unfold sort_values. rewrite sort_by_length, <- Hlen.
    apply nth_error_Some. congruence. }
  assert (Hs : (S k < length (sorted_values df))%nat).
  { unfold sorted_values. now rewrite length_map. }
  assert (Hrate : Features.value_change_rate f = fillna 0 (v / prev - 1)).
  { engineer_features_inv Hf.
    injection Hf as <-.
    rewrite nth_error_map_seq in Hk by exact Hkl.
    injection Hk as <-. cbn [Features.value_change_rate].
    fold (sorted_values df).
    rewrite (nth_map_nth_error (fillna 0) (pct_change (sorted_values df))
               (S k) (v / prev - 1)).
    - apply fillna_idem.
    - unfold pct_change.
      apply (nth_error_zip_with (fun x p => x / p - 1)); [exact Hv|].
      rewrite nth_error_shift by exact Hs. exact Hp. }
  split; [exact Hrate|]. rewrite Hrate. split.
  - intros Hv0. apply fillna_nan. now apply pct_zero_over_zero_nan.
  - intros Hv0.
    assert (Hvn : is_nan v = false).
    { pose proof (forallb_nth_error _ _ _ _ Hnn Hv) as H.
      unfold not_nan in H. now apply negb_true_iff in H. }
    pose proof (pct_zero_predecessor_infinite v prev Hvn Hv0 Hz) as Hi.
    unfold fillna. rewrite (is_infinity_not_nan _ Hi).
    split; [exact Hi|].
    intros E. rewrite E in Hi. discriminate.
Qed.

(** ** The insertion sort: sortedness, permutation, uniqueness *)

Section SortBy.

Context {A : Type} (le : A -> A -> bool).

Hypothesis le_total : forall a b, le a b = false -> le b a = true.
Hypothesis le_trans : forall a b c,
  le a b = true -> le b c = true -> le a c = true.

Lemma insert_by_perm (x : A) (l : list A) :
  Permutation.Permutation (x :: l) (insert_by le x l).
Proof.
  induction l as [|h t IH]; simpl; [apply Permutation.Permutation_refl|].
  destruct (le h x).
  - eapply Permutation.perm_trans; [apply Permutation.perm_swap|].
    now apply Permutation.perm_skip.
  - apply Permutation.Permutation_refl.
Qed.

Lemma sort_by_perm (l : list A) :
  Permutation.Permutation l (sort_by le l).
Proof.
  unfold sort_by.
  assert (G : forall acc,
             Permutation.Permutation (l ++ acc)
               (fold_left (fun acc x => insert_by le x acc) l acc)).
  { induction l as [|h t IH]; intros acc; simpl;
      [apply Permutation.Permutation_refl|].
    eapply Permutation.perm_trans; [|apply IH].
    eapply Permutation.perm_trans;
      [apply Permutation.Permutation_middle|].
    apply Permutation.Permutation_app_head. apply insert_by_perm. }
  specialize (G []). now rewrite app_nil_r in G.
Qed.

Lemma insert_by_sorted (x : A) (l : list A) :
  Sorted.StronglySorted (fun a b => le a b = true) l ->
  Sorted.StronglySorted (fun a b => le a b = true) (insert_by le x l).
Proof.
  induction 1 as [|h t Hs IH Hall]; simpl.
  - constructor; constructor.
  - destruct (le h x) eqn:E.
    + constructor; [exact IH|].
      eapply Permutation.Permutation_Forall; [apply insert_by_perm|].
      constructor; assumption.
    + pose proof (le_total _ _ E) as Hxh.
      constructor; [constructor; assumption|].
      constructor; [exact Hxh|].
      eapply Forall_impl; [|exact Hall].
      intros a Ha. eapply le_trans; eassumption.
Qed.

Lemma sort_by_sorted (l : list A) :
  Sorted.StronglySorted (fun a b => le a b = true) (sort_by le l).
Proof.
  unfold sort_by.
  assert (G : forall acc,
             Sorted.StronglySorted (fun a b => le a b = true) acc ->
             Sorted.StronglySorted (fun a b => le a b = true)
               (fold_left (fun acc x => insert_by le x acc) l acc)).
  { induction l as [|h t IH]; intros acc Hacc; simpl; [exact Hacc|].
    apply IH. now apply insert_by_sorted. }
  apply G. constructor.
Qed.

End SortBy.

(** Two sorted lists with the same elements are equal when no two distinct
    elements compare equal. *)
Lemma sorted_perm_unique {A} (le : A -> A -> bool) (l1 l2 : list A) :
  Sorted.StronglySorted (fun a b => le a b = true) l1 ->
  Sorted.StronglySorted (fun a b => le a b = true) l2 ->
  Permutation.Permutation l1 l2 ->
  (forall a b, In a l1 -> In b l1 ->
     le a b = true -> le b a = true -> a = b) ->
  l1 = l2.
Proof.
  intros H1. revert l2.
  induction H1 as [|h1 t1 Hs1 IH Hall1]; intros l2 H2 Hp Hanti.
  - apply Permutation.Permutation_nil in Hp. now subst.
  - destruct H2 as [|h2 t2 Hs2 Hall2].
    { apply Permutation.Permutation_sym, Permutation.Permutation_nil in Hp.
      discriminate. }
    assert (Hh : h1 = h2).
    { assert (In1 : In h1 (h2 :: t2))
        by (eapply Permutation.Permutation_in; [exact Hp|now left]).
      assert (In2 : In h2 (h1 :: t1))
        by (eapply Permutation.Permutation_in;
            [apply Permutation.Permutation_sym; exact Hp|now left]).
      destruct In1 as [E|In1]; [now symmetry|].
      destruct In2 as [E|In2]; [exact E|].
      rewrite Forall_forall in Hall1, Hall2.
      apply Hanti; [now left|now right|now apply Hall1|now apply Hall2]. }
    subst h2. f_equal. apply IH; [exact Hs2| |].
    + eapply Permutation.Permutation_cons_inv. exact Hp.
    + intros a b Ha Hb. apply Hanti; now right.
Qed.

Lemma NoDup_map_injective {A B} (g : A -> B) (l : list A) (a b : A) :
  NoDup (map g l) -> In a l -> In b l -> g a = g b -> a = b.
Proof.
  induction l as [|h t IH]; intros Hnd Ha Hb E; [contradiction|].
  simpl in Hnd. inversion Hnd as [|? ? Hnotin Hnd']; subst.
  destruct Ha as [->|Ha], Hb as [->|Hb].
  - reflexivity.
  - exfalso. apply Hnotin. rewrite E. now apply in_map.
  - exfalso. apply Hnotin. rewrite <- E. now apply in_map.
  - now apply IH.
Qed.

Lemma timestamp_le_total a b :
  timestamp_le a b = false -> timestamp_le b a = true.
Proof.
  destruct a as [x|], b as [y|]; simpl; try discriminate; try reflexivity.
  intros H. apply Z.leb_gt in H. apply Z.leb_le. lia.
Qed.

Lemma timestamp_le_trans a b c :
  timestamp_le a b = true -> timestamp_le b c = true ->
  timestamp_le a c = true.
Proof.
  destruct a as [x|], b as [y|], c as [z|]; simpl;
    try discriminate; try reflexivity.
  intros H1 H2. apply Z.leb_le in H1, H2. apply Z.leb_le. lia.
Qed.

Lemma timestamp_le_antisym a b :
  timestamp_le a b = true -> timestamp_le b a = true -> a = b.
Proof.
  destruct a as [x|], b as [y|]; simpl; try discriminate; try reflexivity.
  intros H1 H2. apply Z.leb_le in H1, H2. f_equal. lia.
Qed.

Lemma sort_values_perm (df df' : list Reading.t) :
  Permutation.Permutation df df' ->
  NoDup (map Reading.timestamp df) ->
  sort_values df = sort_values df'.
Proof.
  intros Hp Hnd. unfold sort_values.
  assert (Ht : forall a b, reading_le a b = false -> reading_le b a = true)
    by (intros a b; apply timestamp_le_total).
  assert (Hr : forall a b c, reading_le a b = true -> reading_le b c = true ->
                             reading_le a c = true)
    by (intros a b c; apply timestamp_le_trans).
  apply (sorted_perm_unique reading_le).
  - now apply sort_by_sorted.
  - now apply sort_by_sorted.
  - eapply Permutation.perm_trans;
      [apply Permutation.Permutation_sym, sort_by_perm|].
    eapply Permutation.perm_trans; [exact Hp|apply sort_by_perm].
  - intros a b Ha Hb Hab Hba.
    assert (Ha' : In a df)
      by (eapply Permutation.Permutation_in;
          [apply Permutation.Permutation_sym, sort_by_perm|exact Ha]).
    assert (Hb' : In b df)
      by (eapply Permutation.Permutation_in;
          [apply Permutation.Permutation_sym, sort_by_perm|exact Hb]).
    apply (NoDup_map_injective Reading.timestamp df a b Hnd Ha' Hb').
    now apply timestamp_le_antisym.
Qed.

(** [pd.to_datetime] accepts the column exactly when its timestamps are
    all written in one format. *)
Lemma to_datetime_ok_spec (df : list Reading.t) :
  to_datetime_ok df = true <->
  (forall r1 r2 t1 t2,
     In r1 df -> In r2 df ->
     Reading.timestamp r1 = Some t1 -> Reading.timestamp r2 = Some t2 ->
     iso_has_fraction t1 = iso_has_fraction t2).
Proof.
  unfold to_datetime_ok, first_timestamp.
  destruct (find has_timestamp df) as [r|] eqn:F.
  - destruct (find_some _ _ F) as [Hr Ht]. unfold has_timestamp in Ht.
    destruct (Reading.timestamp r) as [t0|] eqn:T; [|discriminate].
    rewrite forallb_forall. split.
    + intros H r1 r2 t1 t2 H1 H2 T1 T2.
      pose proof (H r1 H1) as E1. pose proof (H r2 H2) as E2.
      rewrite T1 in E1. rewrite T2 in E2.
      apply Bool.eqb_prop in E1, E2. congruence.
    + intros H r' Hr'.
      destruct (Reading.timestamp r') as [t|] eqn:T'; [|reflexivity].
      rewrite (H r' r t t0 Hr' Hr T' T). apply Bool.eqb_reflx.
  - split; [|reflexivity].
    intros _ r1 r2 t1 t2 H1 _ T1 _.
    pose proof (find_none _ _ F r1 H1) as N.
    unfold has_timestamp in N. rewrite T1 in N. discriminate.
Qed.

Lemma to_datetime_ok_perm (df df' : list Reading.t) :
  Permutation.Permutation df df' -> to_datetime_ok df = to_datetime_ok df'.
Proof.
  intros Hp.
  assert (G : forall l l', Permutation.Permutation l l' ->
                to_datetime_ok l = true -> to_datetime_ok l' = true).
  { intros l l' Hl H. apply to_datetime_ok_spec.
    intros r1 r2 t1 t2 H1 H2.
    apply (proj1 (to_datetime_ok_spec l) H);
      eapply Permutation.Permutation_in;
      try (apply Permutation.Permutation_sym; exact Hl); assumption. }
  destruct (to_datetime_ok df) eqn:X.
  - symmetry. exact (G df df' Hp X).
  - destruct (to_datetime_ok df') eqn:Y; [|reflexivity].
    rewrite (G df' df (Permutation.Permutation_sym Hp) Y) in X.
    discriminate.
Qed.

(** X8: the engineered features do not depend on the order in which the
    readings are passed, as long as no two readings share a timestamp (at
    most one reading without timestamp included): the frame is sorted
    first. *)
Theorem engineer_features_order_independent (df df' : list Reading.t) :
  Permutation.Permutation df df' ->
  NoDup (map Reading.timestamp df) ->
  _engineer_features df = _engineer_features df'.
Proof.
  intros Hp Hnd. unfold _engineer_features.
  assert (E : existsb has_timestamp df = existsb has_timestamp df').
  { destruct (existsb has_timestamp df) eqn:X.
    - symmetry. apply existsb_exists. apply existsb_exists in X.
      destruct X as (r & Hr & Ht). exists r. split; [|exact Ht].
      eapply Permutation.Permutation_in; eassumption.
    - destruct (existsb has_timestamp df') eqn:Y; [|reflexivity].
      apply existsb_exists in Y. destruct Y as (r & Hr & Ht).
      assert (existsb has_timestamp df = true).
      { apply existsb_exists. exists r. split; [|exact Ht].
        eapply Permutation.Permutation_in;
          [apply Permutation.Permutation_sym; exact Hp|exact Hr]. }
      congruence. }
  rewrite E, (to_datetime_ok_perm df df' Hp), (sort_values_perm df df' Hp Hnd).
  reflexivity.
Qed.

(** ** Sequence construction: edge cases *)

(** X9: with fewer than 24 rows [_create_sequences] returns no sequence
    and no label, without reading the labels. *)
Theorem create_sequences_short (data : list (list float)) (labels : list Z) :
  (length data < sequence_length)%nat ->
  _create_sequences data labels = Ok ([], []).
Proof.
  intros H. unfold _create_sequences, range.
  replace (Z.to_nat (Z.of_nat (length data) - Z.of_nat sequence_length + 1))
    with 0%nat by lia.
  reflexivity.
Qed.

Lemma create_sequences_loop_index_error data labels n : forall a X y i,
  (a <= i < a + n)%nat ->
  (length labels <= i + sequence_length - 1)%nat ->
  create_sequences_loop data labels (seq a n) X y
  = Raise (IndexError "labels").
Proof.
  induction n as [|n IH]; intros a X y i Hi Hb; [lia|].
  simpl.
  destruct (nth_error labels (a + sequence_length - 1)) as [label|] eqn:E;
    [|reflexivity].
  assert (a + sequence_length - 1 < length labels)%nat
    by (apply nth_error_Some; congruence).
  apply (IH (S a) _ _ i); lia.
Qed.

(** X10: with at least 24 rows and fewer labels than rows,
    [_create_sequences] raises IndexError at the first sequence whose
    last row has no label. *)
Theorem create_sequences_labels_too_short (data : list (list float))
  (labels : list Z) :
  (sequence_length <= length data)%nat ->
  (length labels < length data)%nat ->
  _create_sequences data labels = Raise (IndexError "labels").
Proof.
  intros HL Hlab. unfold _create_sequences, range.
  apply (create_sequences_loop_index_error data labels _ 0 [] []
           (length data - sequence_length));
    unfold sequence_length in *; lia.
Qed.

(** ** The model instance over several calls *)

Lemma predict_anomaly_state_ready art sensor_data self m sc :
  ready art self = Some (m, sc) ->
  snd (predict_anomaly art sensor_data self)
  = ModelState.mk (Some m) (Some sc).
Proof.
  unfold ready, predict_anomaly, bind, get, lift, ret, load_model.
  destruct self as [[m0|] [s0|]], art as [[mf|] [sf|]]; simpl;
    intros [= <- <-] || discriminate;
    destruct (_engineer_features sensor_data); simpl; try reflexivity;
    destruct (StandardScaler.transform _ _); simpl; try reflexivity;
    destruct (_ <? _)%nat; reflexivity.
Qed.

(** X11: once a call found or loaded a model and a scaler, the instance
    holds them, whether the scoring of that call returned or raised, and
    every later call scores with them without reading the artifacts
    again. *)
Theorem predict_anomaly_loads_once (art : Artifacts.t)
  (sensor_data : list Reading.t) (self : ModelState.t)
  (m : KerasModel.t) (sc : StandardScaler.t) :
  ready art self = Some (m, sc) ->
  let self' := snd (predict_anomaly art sensor_data self) in
  self' = ModelState.mk (Some m) (Some sc) /\
  forall (art' : Artifacts.t) (later : list Reading.t),
    predict_anomaly art' later self'
    = predict_anomaly art later self'.
Proof.
  intros Hr self'. subst self'.
  rewrite (predict_anomaly_state_ready _ _ _ _ _ Hr).
  split; [reflexivity|].
  intros art' later.
  assert (R : forall a, ready a (ModelState.mk (Some m) (Some sc))
                        = Some (m, sc)) by reflexivity.
  apply injective_projections.
  - now rewrite !(predict_anomaly_ready _ _ _ _ _ (R _)).
  - now rewrite !(predict_anomaly_state_ready _ _ _ _ _ (R _)).
Qed.

(** X12: when a load fails the call raises the load error of the artifact
    that is missing (the model is read first); a model that was read
    before the scaler failed stays assigned; and on a fresh instance the
    failure leaves no trace: every later call behaves as on a fresh
    instance. *)
Theorem predict_anomaly_failed_load (art : Artifacts.t)
  (sensor_data : list Reading.t) (self : ModelState.t) :
  ready art self = None ->
  predict_anomaly art sensor_data self
  = match Artifacts.model_file art with
    | None => (Raise (LoadError "model"), self)
    | Some m =>
        (Raise (LoadError "scaler"),
         ModelState.mk (Some m) (ModelState.scaler self))
    end /\
  (self = ModelState.init ->
   forall (art' : Artifacts.t) (later : list Reading.t),
     fst (predict_anomaly art' later
            (snd (predict_anomaly art sensor_data self)))
     = fst (predict_anomaly art' later ModelState.init)).
Proof.
  intros Hr.
  assert (E : predict_anomaly art sensor_data self
              = match Artifacts.model_file art with
                | None => (Raise (LoadError "model"), self)
                | Some m =>
                    (Raise (LoadError "scaler"),
                     ModelState.mk (Some m) (ModelState.scaler self))
                end).
  { revert Hr.
    unfold ready, predict_anomaly, bind, get, lift, ret, load_model.
    destruct self as [[m0|] [s0|]], art as [[mf|] [sf|]]; simpl;
      intros H; try discriminate; reflexivity. }
  split; [exact E|].
  intros -> art' later. rewrite E.
  destruct art as [[mf|] sf]; cbn [Artifacts.model_file snd ModelState.scaler
    ModelState.init]; [|reflexivity].
  destruct (ready art' ModelState.init) as [[m' sc']|] eqn:R'.
  - assert (R2 : ready art' (ModelState.mk (Some mf) None) = Some (m', sc'))
      by exact R'.
    now rewrite (predict_anomaly_ready _ _ _ _ _ R'),
                (predict_anomaly_ready _ _ _ _ _ R2).
  - unfold predict_anomaly, bind, get, lift, ret, load_model.
    revert R'. unfold ready.
    destruct art' as [[mf'|] [sf'|]]; simpl; intros H;
      try discriminate; reflexivity.
Qed.

Lemma transform_Ok_length (sc : StandardScaler.t) (X X' : list (list float)) :
  StandardScaler.transform sc X = Ok X' -> length X' = length X.
Proof.
  unfold StandardScaler.transform. destruct X as [|row X]; [discriminate|].
  destruct (negb _); [discriminate|].
  destruct (existsb _ _); [discriminate|].
  intros [= <-]. simpl. now rewrite length_map.
Qed.

(** X13: with 24 readings or more, [predict_anomaly] scores exactly the
    last 24 scaled rows in timestamp order (with exactly 24 readings, the
    whole frame): the score is the classifier's output on them and the
    verdict is score > 0.5. *)
Theorem predict_anomaly_latest_sequence (art : Artifacts.t)
  (sensor_data : list Reading.t) (self : ModelState.t)
  (m : KerasModel.t) (sc : StandardScaler.t) (df : list Features.t)
  (X : list (list float)) :
  (sequence_length <= length sensor_data)%nat ->
  ready art self = Some (m, sc) ->
  _engineer_features sensor_data = Ok df ->
  StandardScaler.transform sc (map Features.values df) = Ok X ->
  let X_seq := last_rows sequence_length X in
  let prediction := KerasModel.predict m X_seq in
  length X = length sensor_data /\
  length X_seq = sequence_length /\
  (forall j, (j < sequence_length)%nat ->
     nth_error X_seq j
     = nth_error X (length sensor_data - sequence_length + j)) /\
  fst (predict_anomaly art sensor_data self)
  = Ok (prediction >? 0.5, prediction) /\
  (length sensor_data = sequence_length -> X_seq = X).
Proof.
  intros Hlen Hready Hdf HX X_seq prediction.
  assert (HXl : length X = length sensor_data).
  { rewrite (transform_Ok_length _ _ _ HX), length_map.
    now apply engineer_features_length. }
  split; [exact HXl|]. subst prediction X_seq. unfold last_rows.
  split; [rewrite length_skipn; lia|].
  split.
  { intros j Hj. rewrite nth_error_skipn, HXl. reflexivity. }
  split.
  { rewrite (predict_anomaly_ready _ _ _ _ _ Hready).
    unfold score_with, last_rows. rewrite Hdf, HX, !HXl.
    destruct (Nat.ltb_spec (length sensor_data) sequence_length); [lia|].
    reflexivity. }
  intros E. rewrite HXl, E, Nat.sub_diag. reflexivity.
Qed.

(** ** Detection: further properties *)

Lemma determine_severity_in_enum (s : float) :
  severity_in_enum (_determine_severity s) = true.
Proof.
  unfold _determine_severity.
  destruct (s >=? 0.9); [reflexivity|].
  destruct (s >=? 0.8); [reflexivity|].
  destruct (s >=? 0.6); reflexivity.
Qed.

(** X14: the severity of the record [detect_anomaly] returns is one of
    low, medium, high, critical exactly when the record reports an
    anomaly; every other record carries 'normal' or 'error'. *)
Theorem detect_anomaly_severity_enum (settings : Settings.t)
  (art : Artifacts.t) (utcnow : Z) (cur : Reading.t)
  (hist : list Reading.t) (self : ModelState.t) :
  let r := fst (detect_anomaly settings art utcnow cur hist self) in
  severity_in_enum (DetectionResult.severity r)
  = DetectionResult.is_anomaly r /\
  (DetectionResult.is_anomaly r = false ->
   DetectionResult.severity r = "normal"%string \/
   DetectionResult.severity r = "error"%string).
Proof.
  unfold detect_anomaly.
  destruct (predict_anomaly art (hist ++ [cur]) self) as [[[b s]|e] self'];
    cbn [fst].
  - destruct (b && _); cbn [fst DetectionResult.severity
      DetectionResult.is_anomaly].
    + split; [apply determine_severity_in_enum|discriminate].
    + split; [reflexivity|now left].
  - cbn [DetectionResult.severity DetectionResult.is_anomaly].
    split; [reflexivity|now right].
Qed.

(** X15: when the alerting threshold is 0.9 or more, as the default 0.95
    is, every anomaly [detect_anomaly] reports has severity 'critical':
    the tiers low, medium and high are never assigned. *)
Theorem detect_anomaly_always_critical (settings : Settings.t)
  (art : Artifacts.t) (utcnow : Z) (cur : Reading.t)
  (hist : list Reading.t) (self : ModelState.t) :
  (Settings.MODEL_ACCURACY_THRESHOLD settings >=? 0.9) = true ->
  let r := fst (detect_anomaly settings art utcnow cur hist self) in
  DetectionResult.is_anomaly r = true ->
  DetectionResult.severity r = "critical"%string.
Proof.
  intros Hthr. unfold detect_anomaly.
  destruct (predict_anomaly art (hist ++ [cur]) self) as [[[b s]|e] self'];
    cbn [fst]; [|discriminate].
  destruct (b && (s >=? Settings.MODEL_ACCURACY_THRESHOLD settings)) eqn:E;
    cbn [fst DetectionResult.severity DetectionResult.is_anomaly];
    [|discriminate].
  intros _. apply andb_true_iff in E. destruct E as [_ E].
  unfold _determine_severity.
  now rewrite (geb_weaken 0.9 _ s Hthr E).
Qed.

(** ** Ingestion: keys, frames and effects *)

Lemma detect_anomaly_artifact_unavailable_record settings art utcnow cur
  hist self :
  ready art self = None ->
  exists what,
    fst (detect_anomaly settings art utcnow cur hist self)
    = DetectionResult.mk false 0 "error" (DetectionError (LoadError what))
        None None None.
Proof.
  intros Hr.
  destruct (predict_anomaly_not_ready art (hist ++ [cur]) self Hr)
    as (what & Hp).
  exists what. now apply detect_anomaly_raise.
Qed.

(** X17: the background task leaves the readings as they are: no row of
    [sensor_data] is added or removed, every row keeps its key, sensor,
    timestamp and value, and every row other than the one updated is
    unchanged; the existing alerts stay, in order, and at most one alert
    is appended. *)
Theorem process_sensor_data_async_frame (settings : Settings.t)
  (art : Artifacts.t) (utcnow : Z) (sensor_data : Reading.t) (id : nat)
  (w : World.t) :
  let db := World.db w in
  let db' := World.db (process_sensor_data_async settings art utcnow
                         sensor_data id w) in
  map (fun d => (SensorData.id d, SensorData.sensor_id d,
                 SensorData.timestamp d, SensorData.value d))
      (Database.sensor_data db')
  = map (fun d => (SensorData.id d, SensorData.sensor_id d,
                   SensorData.timestamp d, SensorData.value d))
        (Database.sensor_data db) /\
  (forall k d, nth_error (Database.sensor_data db) k = Some d ->
     SensorData.id d <> id ->
     nth_error (Database.sensor_data db') k = Some d) /\
  exists new,
    Database.anomaly_alerts db' = Database.anomaly_alerts db ++ new /\
    (length new <= 1)%nat.
Proof.
  intros db db'. subst db'. rewrite process_sensor_data_async_db.
  cbv zeta. set (r := fst (detect_anomaly _ _ _ _ _ _)).
  assert (Hrows : forall b : bool,
            Database.sensor_data
              (if b
               then create_anomaly_alert utcnow sensor_data r
                      (update_sensor_anomaly_status id r db)
               else update_sensor_anomaly_status id r db)
            = Database.sensor_data (update_sensor_anomaly_status id r db))
    by (intros []; reflexivity).
  rewrite Hrows. unfold update_sensor_anomaly_status.
  cbn [Database.sensor_data]. split; [|split].
  - rewrite map_map. apply map_ext. intros d.
    now destruct (SensorData.id d =? id)%nat.
  - intros k d Hk Hid. rewrite (map_nth_error _ _ _ Hk).
    destruct (Nat.eqb_spec (SensorData.id d) id); [contradiction|reflexivity].
  - destruct (DetectionResult.is_anomaly r).
    + eexists [_]. split; [reflexivity|simpl; lia].
    + exists []. split; [now rewrite app_nil_r|simpl; lia].
Qed.

(** X18: after the background task the row with the given key carries the
    detection result: its is_anomaly flag and its score; in particular a
    failed load of the model is stored as not anomalous with score 0.0,
    as an insufficient history is, and adds no alert. *)
Theorem process_sensor_data_async_stores_result (settings : Settings.t)
  (art : Artifacts.t) (utcnow : Z) (sensor_data : Reading.t) (id : nat)
  (w : World.t) (d' : SensorData.t) :
  let historical_data :=
    fst (get_historical_sensor_data (Reading.sensor_id sensor_data) 24 utcnow
           (World.db w) (World.cache w)) in
  let r := fst (detect_anomaly settings art utcnow sensor_data
                  historical_data (World.service w)) in
  let db' := World.db (process_sensor_data_async settings art utcnow
                         sensor_data id w) in
  In d' (Database.sensor_data db') ->
  SensorData.id d' = id ->
  SensorData.is_anomaly d' = DetectionResult.is_anomaly r /\
  SensorData.anomaly_score d' = Some (DetectionResult.anomaly_score r) /\
  (ready art (World.service w) = None ->
   SensorData.is_anomaly d' = false /\
   SensorData.anomaly_score d' = Some 0 /\
   Database.anomaly_alerts db' = Database.anomaly_alerts (World.db w)).
Proof.
  intros historical_data r db'. subst db'.
  rewrite process_sensor_data_async_db. cbv zeta.
  fold historical_data. fold r.
  assert (Hrows : forall b : bool,
            Database.sensor_data
              (if b
               then create_anomaly_alert utcnow sensor_data r
                      (update_sensor_anomaly_status id r (World.db w))
               else update_sensor_anomaly_status id r (World.db w))
            = Database.sensor_data
                (update_sensor_anomaly_status id r (World.db w)))
    by (intros []; reflexivity).
  rewrite Hrows. unfold update_sensor_anomaly_status at 1.
  cbn [Database.sensor_data].
  intros Hin Hid. apply in_map_iff in Hin. destruct Hin as (d & Hd & _).
  assert (E : SensorData.is_anomaly d' = DetectionResult.is_anomaly r /\
              SensorData.anomaly_score d'
              = Some (DetectionResult.anomaly_score r)).
  { destruct (Nat.eqb_spec (SensorData.id d) id) as [_|Hne].
    - subst d'. split; reflexivity.
    - subst d'. contradiction. }
  destruct E as [E1 E2]. split; [exact E1|]. split; [exact E2|].
  intros Hr.
  destruct (detect_anomaly_artifact_unavailable_record settings art utcnow
              sensor_data historical_data (World.service w) Hr)
    as (what & Hrec).
  fold r in Hrec. rewrite E1, E2, Hrec.
  cbn [DetectionResult.is_anomaly DetectionResult.anomaly_score].
  repeat split.
Qed.

Lemma detect_anomaly_anomalous_record settings art utcnow cur hist self :
  DetectionResult.is_anomaly
    (fst (detect_anomaly settings art utcnow cur hist self)) = true ->
  exists s,
    fst (predict_anomaly art (hist ++ [cur]) self) = Ok (true, s) /\
    (s >=? Settings.MODEL_ACCURACY_THRESHOLD settings) = true /\
    fst (detect_anomaly settings art utcnow cur hist self)
    = DetectionResult.mk true s (_determine_severity s)
        (AnomalyDetectedWithScore s)
        (Some (match Reading.timestamp cur with
               | Some t => t
               | None => utcnow
               end))
        (Some (Reading.sensor_id cur)) (Some (Reading.value cur)).
Proof.
  unfold detect_anomaly.
  destruct (predict_anomaly art (hist ++ [cur]) self) as [[[b s]|e] self'];
    cbn [fst]; [|discriminate].
  destruct (b && (s >=? Settings.MODEL_ACCURACY_THRESHOLD settings)) eqn:E;
    cbn [fst DetectionResult.is_anomaly]; [|discriminate].
  intros _. apply andb_true_iff in E. destruct E as [-> E].
  exists s. repeat split. exact E.
Qed.

(** X19: the alert the background task inserts for an anomaly has the next
    key of the table and the clock reading as timestamp, is unresolved,
    names the sensor and the value of the reading, carries a severity of
    the enum low, medium, high, critical, and a score that is above 0.5
    and at or above the alerting threshold. *)
Theorem process_sensor_data_async_alert (settings : Settings.t)
  (art : Artifacts.t) (utcnow : Z) (sensor_data : Reading.t) (id : nat)
  (w : World.t) :
  let historical_data :=
    fst (get_historical_sensor_data (Reading.sensor_id sensor_data) 24 utcnow
           (World.db w) (World.cache w)) in
  let r := fst (detect_anomaly settings art utcnow sensor_data
                  historical_data (World.service w)) in
  let alerts := Database.anomaly_alerts (World.db w) in
  let alerts' :=
    Database.anomaly_alerts
      (World.db (process_sensor_data_async settings art utcnow sensor_data
                   id w)) in
  DetectionResult.is_anomaly r = true ->
  exists a,
    alerts' = alerts ++ [a] /\
    AnomalyAlert.id a = S (length alerts) /\
    AnomalyAlert.timestamp a = utcnow /\
    AnomalyAlert.resolved a = false /\
    AnomalyAlert.sensor_id a = Reading.sensor_id sensor_data /\
    AnomalyAlert.sensor_value a = Reading.value sensor_data /\
    AnomalyAlert.severity a = _determine_severity (AnomalyAlert.anomaly_score a) /\
    severity_in_enum (AnomalyAlert.severity a) = true /\
    (AnomalyAlert.anomaly_score a >? 0.5) = true /\
    (AnomalyAlert.anomaly_score a
       >=? Settings.MODEL_ACCURACY_THRESHOLD settings) = true.
Proof.
  intros historical_data r alerts alerts' Ha. subst alerts'.
  rewrite process_sensor_data_async_db. cbv zeta.
  fold historical_data. fold r. rewrite Ha.
  destruct (detect_anomaly_anomalous_record settings art utcnow sensor_data
              historical_data (World.service w) Ha) as (s & Hp & Hthr & Hrec).
  fold r in Hrec.
  pose proof (predict_anomaly_verdict _ _ _ _ _ Hp) as Hv.
  unfold create_anomaly_alert.
  cbn [Database.anomaly_alerts update_sensor_anomaly_status].
  eexists. split; [reflexivity|].
  cbn [AnomalyAlert.id AnomalyAlert.timestamp AnomalyAlert.resolved
       AnomalyAlert.sensor_id AnomalyAlert.sensor_value
       AnomalyAlert.severity AnomalyAlert.anomaly_score].
  rewrite Hrec.
  cbn [DetectionResult.severity DetectionResult.anomaly_score].
  repeat split; try assumption.
  - apply determine_severity_in_enum.
  - now symmetry.
Qed.

(** ** The cache and the window *)

Lemma key_eqb_refl (k : Cache.key) : Cache.key_eqb k k = true.
Proof.
  unfold Cache.key_eqb. now rewrite String.eqb_refl, Z.eqb_refl.
Qed.

Lemma key_eqb_neq (k k' : Cache.key) : k <> k' -> Cache.key_eqb k k' = false.
Proof.
  intros H. unfold Cache.key_eqb.
  destruct k as [s h], k' as [s' h']. cbn [fst snd].
  destruct (String.eqb_spec s s') as [->|]; [|reflexivity].
  destruct (Z.eqb_spec h h') as [->|]; [congruence|reflexivity].
Qed.

Lemma cache_get_after_set (k : Cache.key) (v : list Reading.t)
  (ttl t0 t : Z) (c : Cache.t) :
  Cache.cache_get k t (Cache.cache_set k v ttl t0 c)
  = (if (t <? t0 + ttl * 1000000)%Z then Some v else None) /\
  (forall k', k' <> k ->
     Cache.cache_get k' t (Cache.cache_set k v ttl t0 c)
     = Cache.cache_get k' t c).
Proof.
  unfold Cache.cache_get, Cache.cache_set. cbn [find fst].
  split.
  - now rewrite key_eqb_refl.
  - intros k' Hk. rewrite key_eqb_neq by congruence. reflexivity.
Qed.

Lemma get_historical_miss_pair sensor_id hours utcnow db cache :
  Cache.cache_get (sensor_id, hours) utcnow cache = None ->
  get_historical_sensor_data sensor_id hours utcnow db cache
  = (map to_dict
       (select_since sensor_id (utcnow - hours * usec_per_hour)
          (Database.sensor_data db)),
     Cache.cache_set (sensor_id, hours)
       (map to_dict
          (select_since sensor_id (utcnow - hours * usec_per_hour)
             (Database.sensor_data db)))
       300 utcnow cache).
Proof.
  unfold get_historical_sensor_data. now intros ->.
Qed.

(** X21: a window read from the table and not empty is served from the
    cache for the next five minutes, whatever is stored in the meantime
    (a reading appended in that time is not in the window), and read from
    the table again once the five minutes have passed. *)
Theorem get_historical_cached_five_minutes (sensor_id : string)
  (hours t1 t2 : Z) (db db2 : Database.t) (cache : Cache.t) :
  let window1 :=
    fst (get_historical_sensor_data sensor_id hours t1 db cache) in
  let cache1 :=
    snd (get_historical_sensor_data sensor_id hours t1 db cache) in
  Cache.cache_get (sensor_id, hours) t1 cache = None ->
  window1 <> [] ->
  ((t2 < t1 + 300 * 1000000)%Z ->
   get_historical_sensor_data sensor_id hours t2 db2 cache1
   = (window1, cache1)) /\
  ((t1 + 300 * 1000000 <= t2)%Z ->
   fst (get_historical_sensor_data sensor_id hours t2 db2 cache1)
   = map to_dict
       (select_since sensor_id (t2 - hours * usec_per_hour)
          (Database.sensor_data db2))).
Proof.
  intros window1 cache1 Hmiss Hne. subst window1 cache1.
  rewrite (get_historical_miss_pair _ _ _ _ _ Hmiss) in Hne |- *.
  cbn [fst snd] in Hne |- *.
  set (w1 := map to_dict _) in *.
  destruct (cache_get_after_set (sensor_id, hours) w1 300 t1 t2 cache)
    as [Hget _].
  split; intros Ht; unfold get_historical_sensor_data; rewrite Hget.
  - destruct (Z.ltb_spec t2 (t1 + 300 * 1000000)); [|lia].
    destruct w1; [congruence|reflexivity].
  - destruct (Z.ltb_spec t2 (t1 + 300 * 1000000)); [lia|]. reflexivity.
Qed.

(** X22: an empty window is never served from the cache: after a call
    that returned no reading, the next call reads the table, at whatever
    time it is made. *)
Theorem get_historical_empty_not_cached (sensor_id : string)
  (hours t1 t2 : Z) (db db2 : Database.t) (cache : Cache.t) :
  fst (get_historical_sensor_data sensor_id hours t1 db cache) = [] ->
  fst (get_historical_sensor_data sensor_id hours t2 db2
         (snd (get_historical_sensor_data sensor_id hours t1 db cache)))
  = map to_dict
      (select_since sensor_id (t2 - hours * usec_per_hour)
         (Database.sensor_data db2)).
Proof.
  intros Hw.
  destruct (Cache.cache_get (sensor_id, hours) t1 cache) as [w|] eqn:Hc.
  - assert (E : get_historical_sensor_data sensor_id hours t1 db cache
                = (match w with
                   | [] => map to_dict
                             (select_since sensor_id
                                (t1 - hours * usec_per_hour)
                                (Database.sensor_data db))
                   | _ :: _ => w
                   end,
                   match w with
                   | [] => Cache.cache_set (sensor_id, hours)
                             (map to_dict
                                (select_since sensor_id
                                   (t1 - hours * usec_per_hour)
                                   (Database.sensor_data db)))
                             300 t1 cache
                   | _ :: _ => cache
                   end)).
    { unfold get_historical_sensor_data. rewrite Hc. now destruct w. }
    rewrite E in Hw |- *. cbn [fst snd] in Hw |- *.
    destruct w as [|r w]; [|discriminate].
    unfold get_historical_sensor_data.
    rewrite (proj1 (cache_get_after_set _ _ _ _ _ _)), Hw.
    now destruct (_ <? _)%Z.
  - rewrite (get_historical_miss_pair _ _ _ _ _ Hc) in Hw |- *.
    cbn [fst snd] in Hw |- *.
    unfold get_historical_sensor_data.
    rewrite (proj1 (cache_get_after_set _ _ _ _ _ _)), Hw.
    now destruct (_ <? _)%Z.
Qed.

Lemma sensor_data_le_total a b :
  sensor_data_le a b = false -> sensor_data_le b a = true.
Proof.
  unfold sensor_data_le. intros H. apply Z.leb_gt in H. apply Z.leb_le. lia.
Qed.

Lemma sensor_data_le_trans a b c :
  sensor_data_le a b = true -> sensor_data_le b c = true ->
  sensor_data_le a c = true.
Proof.
  unfold sensor_data_le. intros H1 H2.
  apply Z.leb_le in H1, H2. apply Z.leb_le. lia.
Qed.

Lemma StronglySorted_map {A B} (g : A -> B) (R : B -> B -> Prop)
  (l : list A) :
  Sorted.StronglySorted (fun a b => R (g a) (g b)) l ->
  Sorted.StronglySorted R (map g l).
Proof.
  induction 1 as [|h t Hs IH Hall]; simpl; constructor; [exact IH|].
  rewrite Forall_map. exact Hall.
Qed.

Lemma select_since_In sensor_id start_time table d :
  In d (select_since sensor_id start_time table) <->
  In d table /\ SensorData.sensor_id d = sensor_id /\
  (start_time <= SensorData.timestamp d)%Z.
Proof.
  unfold select_since. split.
  - intros H.
    apply (Permutation.Permutation_in _
             (Permutation.Permutation_sym (sort_by_perm _ _))) in H.
    apply filter_In in H. destruct H as [Hin Hb].
    apply andb_true_iff in Hb. destruct Hb as [Hs Ht].
    apply String.eqb_eq in Hs. apply Z.leb_le in Ht. auto.
  - intros (Hin & Hs & Ht).
    apply (Permutation.Permutation_in _ (sort_by_perm _ _)).
    apply filter_In. split; [exact Hin|].
    apply andb_true_iff. split; [now apply String.eqb_eq|now apply Z.leb_le].
Qed.

Lemma StronglySorted_impl {A} (R R' : A -> A -> Prop) (l : list A) :
  (forall a b, R a b -> R' a b) ->
  Sorted.StronglySorted R l -> Sorted.StronglySorted R' l.
Proof.
  intros HR. induction 1 as [|h t Hs IH Hall]; constructor; [exact IH|].
  eapply Forall_impl; [|exact Hall]. intros b. apply HR.
Qed.

(** X23: a window read from the table holds exactly the rows of the sensor
    whose timestamp is inside the horizon, each once per row, every entry
    with its timestamp, in ascending order of timestamp. *)
Theorem get_historical_window_contents (sensor_id : string)
  (hours utcnow : Z) (db : Database.t) (cache : Cache.t) :
  Cache.cache_get (sensor_id, hours) utcnow cache = None ->
  let window :=
    fst (get_historical_sensor_data sensor_id hours utcnow db cache) in
  let start_time := (utcnow - hours * usec_per_hour)%Z in
  (forall r, In r window <->
     exists d, In d (Database.sensor_data db) /\
               SensorData.sensor_id d = sensor_id /\
               (start_time <= SensorData.timestamp d)%Z /\
               r = to_dict d) /\
  length window
  = length (filter (fun d => String.eqb (SensorData.sensor_id d) sensor_id
                             && (start_time <=? SensorData.timestamp d)%Z)
              (Database.sensor_data db)) /\
  Sorted.StronglySorted
    (fun a b => exists x y, Reading.timestamp a = Some x /\
                            Reading.timestamp b = Some y /\ (x <= y)%Z)
    window.
Proof.
  intros Hmiss window start_time. subst window.
  rewrite (get_historical_miss _ _ _ _ _ Hmiss). fold start_time.
  split; [|split].
  - intros r. rewrite in_map_iff. split.
    + intros (d & <- & Hd). apply select_since_In in Hd.
      exists d. tauto.
    + intros (d & Hin & Hs & Ht & ->). exists d.
      split; [reflexivity|]. apply select_since_In. tauto.
  - rewrite length_map. unfold select_since. apply sort_by_length.
  - apply StronglySorted_map. unfold select_since.
    eapply StronglySorted_impl;
      [|apply sort_by_sorted;
        [apply sensor_data_le_total|apply sensor_data_le_trans]].
    intros a b Hab. unfold sensor_data_le in Hab. apply Z.leb_le in Hab.
    exists (SensorData.timestamp a), (SensorData.timestamp b).
    repeat split. exact Hab.
Qed.

(** ** The background task from its first line *)

Lemma produce_sensor_data_timestamp utcnow sensor_data :
  has_timestamp (produce_sensor_data utcnow sensor_data) = true.
Proof.
  unfold produce_sensor_data, has_timestamp.
  destruct (Reading.timestamp sensor_data) eqn:E; [now rewrite E|reflexivity].
Qed.

(** Feature engineering returns one row per reading once the frame has a
    timestamp column that [pd.to_datetime] accepts. *)
Lemma engineer_features_Ok_of_timestamp df :
  existsb has_timestamp df = true ->
  to_datetime_ok df = true ->
  exists feats, _engineer_features df = Ok feats /\
                length feats = length df.
Proof.
  intros X P.
  destruct (_engineer_features df) as [feats|e] eqn:F.
  - exists feats. split; [reflexivity|]. now apply engineer_features_length.
  - unfold _engineer_features in F.
    rewrite X, P in F. discriminate.
Qed.

(** A frame whose last reading carries a timestamp never raises
    KeyError. *)
Lemma engineer_features_last_timestamped df r :
  has_timestamp r = true ->
  _engineer_features (df ++ [r]) <> Raise (KeyError "timestamp").
Proof.
  intros Ht.
  assert (X : existsb has_timestamp (df ++ [r]) = true).
  { apply existsb_exists. exists r. split; [|exact Ht].
    apply in_or_app. right. now left. }
  unfold _engineer_features. rewrite X. cbn [negb].
  destruct (to_datetime_ok (df ++ [r])); cbn [negb]; discriminate.
Qed.

(** One format throughout: the timestamps of [df] are written like [t]. *)
Lemma to_datetime_ok_snoc df r t :
  Reading.timestamp r = Some t ->
  (forall r' t', In r' df -> Reading.timestamp r' = Some t' ->
     iso_has_fraction t' = iso_has_fraction t) ->
  to_datetime_ok (df ++ [r]) = true.
Proof.
  intros Hr H. apply to_datetime_ok_spec.
  assert (G : forall r1 t1, In r1 (df ++ [r]) ->
                Reading.timestamp r1 = Some t1 ->
                iso_has_fraction t1 = iso_has_fraction t).
  { intros r1 t1 H1 T1. apply in_app_or in H1.
    destruct H1 as [H1|[<-|[]]]; [now apply (H r1)|congruence]. }
  intros r1 r2 t1 t2 H1 H2 T1 T2.
  rewrite (G r1 t1 H1 T1), (G r2 t2 H2 T2). reflexivity.
Qed.

(** X24: in the background task the dict gets the Kafka producer's clock
    reading as timestamp before it is scored, so the frame that is scored
    has a timestamp column, also for a sensor without history: feature
    engineering never raises KeyError on it, and it returns a row per
    reading when the timestamps of the history are written in the format
    of that clock reading; the request dict itself, scored alone, raises
    KeyError('timestamp').  When the Redis publication or the Kafka send
    fails, the task changes nothing: no score is written and no alert is
    inserted. *)
Theorem background_task_scores_timestamped (settings : Settings.t)
  (art : Artifacts.t) (redis_ok : bool) (kafka : KafkaOutcome)
  (kafka_now utcnow : Z) (reading : SensorDataCreate.t) (id : nat)
  (w : World.t) :
  let sensor_data := SensorDataCreate.dict reading in
  let task := background_task settings art redis_ok kafka kafka_now
                utcnow sensor_data id w in
  _engineer_features [sensor_data] = Raise (KeyError "timestamp") /\
  (redis_ok = false \/ kafka <> KafkaSent -> snd task = w) /\
  (redis_ok = true -> kafka = KafkaSent ->
   Reading.timestamp (fst task) = Some kafka_now /\
   snd task
   = process_sensor_data_async settings art utcnow (fst task) id w /\
   forall historical_data,
     _engineer_features (historical_data ++ [fst task])
       <> Raise (KeyError "timestamp") /\
     ((forall r t, In r historical_data -> Reading.timestamp r = Some t ->
         iso_has_fraction t = iso_has_fraction kafka_now) ->
      exists feats,
        _engineer_features (historical_data ++ [fst task]) = Ok feats /\
        length feats = S (length historical_data))).
Proof.
  intros sensor_data task. subst task. unfold background_task.
  split; [reflexivity|]. split.
  - intros [-> | Hk]; [reflexivity|].
    destruct redis_ok, kafka; simpl; try reflexivity; congruence.
  - intros -> ->. simpl.
    split; [reflexivity|]. split; [reflexivity|].
    intros historical_data.
    set (current := produce_sensor_data kafka_now sensor_data).
    split.
    + apply engineer_features_last_timestamped.
      apply produce_sensor_data_timestamp.
    + intros Hfmt.
      destruct (engineer_features_Ok_of_timestamp (historical_data ++ [current]))
        as (feats & Hf & Hl).
      * apply existsb_exists. exists current.
        split; [apply in_or_app; right; now left|].
        apply produce_sensor_data_timestamp.
      * apply (to_datetime_ok_snoc historical_data current kafka_now);
          [reflexivity|exact Hfmt].
      * exists feats. split; [exact Hf|].
        rewrite Hl, length_app. simpl. lia.
Qed.

Lemma insert_by_last {A} (le : A -> A -> bool) (x : A) (l : list A) :
  (forall h, In h l -> le h x = true) -> insert_by le x l = l ++ [x].
Proof.
  induction l as [|h t IH]; intros H; simpl; [reflexivity|].
  rewrite (H h (or_introl eq_refl)). f_equal.
  apply IH. intros a Ha. apply H. now right.
Qed.

(** The insertion sort leaves a sorted list as it is. *)
Lemma sort_by_sorted_id {A} (le : A -> A -> bool) (l : list A) :
  Sorted.StronglySorted (fun a b => le a b = true) l -> sort_by le l = l.
Proof.
  unfold sort_by.
  assert (G : forall acc,
             (forall a x, In a acc -> In x l -> le a x = true) ->
             Sorted.StronglySorted (fun a b => le a b = true) l ->
             fold_left (fun acc x => insert_by le x acc) l acc = acc ++ l).
  { induction l as [|h t IH]; intros acc Hacc Hs; simpl;
      [now rewrite app_nil_r|].
    inversion Hs as [|? ? Hs' Hall]; subst.
    rewrite insert_by_last by (intros a Ha; apply Hacc; [exact Ha|now left]).
    rewrite IH; [now rewrite <- app_assoc| |exact Hs'].
    intros a x Ha Hx. apply in_app_or in Ha. destruct Ha as [Ha|[<-|[]]].
    - apply Hacc; [exact Ha|now right].
    - rewrite Forall_forall in Hall. now apply Hall. }
  intros Hs. now rewrite G.
Qed.

Lemma sub_self_filled (x : float) : fillna 0 (x - x) = 0.
Proof.
  assert (E : Prim2SF (x - x) = S754_nan \/
              Prim2SF (x - x) = S754_zero false).
  { rewrite sub_spec. unfold SF64sub, SFsub.
    destruct (Prim2SF x) as [s|s| |s m e].
    - right. now destruct s.
    - left. now destruct s.
    - now left.
    - right. now rewrite Z.sub_diag. }
  destruct E as [E|E].
  - now apply fillna_nan, is_nan_spec.
  - rewrite <- (SF2Prim_Prim2SF (x - x)), E. reflexivity.
Qed.

Lemma nth_error_app_at {A} (l : list A) (a b : A) :
  nth_error (l ++ [a; b]) (length l) = Some a /\
  nth_error (l ++ [a; b]) (S (length l)) = Some b.
Proof.
  split.
  - rewrite nth_error_app2 by lia. now rewrite Nat.sub_diag.
  - rewrite nth_error_app2 by lia.
    now replace (S (length l) - length l)%nat with 1%nat by lia.
Qed.

(** X25: when a reading is stored and then scored by the background task
    with the window read from the table (nothing cached, every row
    already in the table older than the reading, the producer's clock
    later than the reading's instant), the stored reading is the last
    entry of the window and the same reading follows it as the current
    one in the sorted frame; whenever the features of that frame are
    computed, the scored point is therefore preceded by itself and its
    value_diff is 0.0, whatever its value. *)
Theorem scored_reading_follows_itself (reading : SensorDataCreate.t)
  (db : Database.t) (cache : Cache.t) (t0 kafka_now utcnow : Z)
  (feats : list Features.t) :
  let sensor_id := SensorDataCreate.sensor_id reading in
  let db1 := snd (create_sensor_data t0 reading db) in
  let stored := to_dict (fst (create_sensor_data t0 reading db)) in
  let current :=
    produce_sensor_data kafka_now (SensorDataCreate.dict reading) in
  let window :=
    fst (get_historical_sensor_data sensor_id 24 utcnow db1 cache) in
  (forall d, In d (Database.sensor_data db) ->
     (SensorData.timestamp d < t0)%Z) ->
  (t0 < kafka_now)%Z ->
  (utcnow - 24 * usec_per_hour <= t0)%Z ->
  Cache.cache_get (sensor_id, 24%Z) utcnow cache = None ->
  _engineer_features (window ++ [current]) = Ok feats ->
  exists earlier before f,
    window = earlier ++ [stored] /\
    Reading.value stored = Reading.value current /\
    sort_values (window ++ [current]) = before ++ [stored; current] /\
    length before = length earlier /\
    nth_error feats (length window) = Some f /\
    length feats = S (length window) /\
    Features.value_diff f = 0.
Proof.
  intros sensor_id db1 stored current window Hclock Hk Hh Hmiss Hf.
  set (start := (utcnow - 24 * usec_per_hour)%Z) in *.
  set (d1 := fst (create_sensor_data t0 reading db)) in *.
  set (S0 := select_since sensor_id start (Database.sensor_data db)).
  assert (HS0 : forall d, In d S0 -> (SensorData.timestamp d < t0)%Z).
  { intros d Hd. apply select_since_In in Hd. apply Hclock. tauto. }
  assert (Hwin : window = map to_dict S0 ++ [stored]).
  { subst window. rewrite (get_historical_miss _ _ _ _ _ Hmiss).
    fold start. subst db1. cbn [create_sensor_data snd Database.sensor_data].
    rewrite (select_since_snoc sensor_id start _ d1);
      [|apply String.eqb_refl|exact Hh].
    fold S0. rewrite insert_by_last.
    - now rewrite map_app.
    - intros h Hin. unfold sensor_data_le. apply Z.leb_le.
      cbn [d1 create_sensor_data fst SensorData.timestamp].
      specialize (HS0 h Hin). lia. }
  assert (Hsorted0 : sort_values (map to_dict S0) = map to_dict S0).
  { unfold sort_values. apply sort_by_sorted_id.
    apply StronglySorted_map.
    eapply StronglySorted_impl;
      [|apply (sort_by_sorted sensor_data_le);
        [apply sensor_data_le_total|apply sensor_data_le_trans]].
    intros a b Hab. exact Hab. }
  assert (Hsort : sort_values (window ++ [current])
                  = map to_dict S0 ++ [stored; current]).
  { rewrite Hwin. unfold sort_values.
    rewrite !sort_by_snoc. fold (sort_values (map to_dict S0)).
    rewrite Hsorted0.
    rewrite (insert_by_last reading_le stored (map to_dict S0)).
    - rewrite (insert_by_last reading_le current);
        [now rewrite <- app_assoc|].
      intros h Hin. apply in_app_or in Hin. unfold reading_le.
      destruct Hin as [Hin|[<-|[]]].
      + apply in_map_iff in Hin. destruct Hin as (d & <- & Hd).
        cbn. apply Z.leb_le. specialize (HS0 d Hd). lia.
      + cbn. apply Z.leb_le. lia.
    - intros h Hin. apply in_map_iff in Hin. destruct Hin as (d & <- & Hd).
      unfold reading_le. cbn. apply Z.leb_le. specialize (HS0 d Hd). lia. }
  pose proof (engineer_features_length _ _ Hf) as Hl.
  rewrite length_app in Hl. cbn [length] in Hl.
  destruct (nth_error feats (length window)) as [f|] eqn:Hn.
  2:{ apply nth_error_None in Hn. lia. }
  exists (map to_dict S0), (map to_dict S0), f.
  split; [exact Hwin|]. split; [reflexivity|]. split; [exact Hsort|].
  split; [reflexivity|]. split; [reflexivity|]. split; [lia|].
  assert (Hlw : length window = S (length (map to_dict S0))).
  { rewrite Hwin, length_app. simpl. lia. }
  rewrite Hlw in Hn.
  assert (Hvals : sorted_values (window ++ [current])
                  = map Reading.value (map to_dict S0)
                    ++ [Reading.value stored; Reading.value current]).
  { unfold sorted_values. rewrite Hsort, map_app. reflexivity. }
  destruct (nth_error_app_at (map Reading.value (map to_dict S0))
              (Reading.value stored) (Reading.value current)) as [Ha Hb].
  rewrite length_map in Ha, Hb.
  rewrite (value_diff_at (window ++ [current]) feats _ f
             (Reading.value current) (Reading.value stored) Hf Hn).
  - change (Reading.value stored) with (Reading.value current).
    apply sub_self_filled.
  - now rewrite Hvals.
  - now rewrite Hvals.
Qed.

(** ** The read endpoints *)

Lemma sensor_data_ge_total a b :
  sensor_data_ge a b = false -> sensor_data_ge b a = true.
Proof.
  unfold sensor_data_ge. intros H. apply Z.leb_gt in H. apply Z.leb_le. lia.
Qed.

Lemma sensor_data_ge_trans a b c :
  sensor_data_ge a b = true -> sensor_data_ge b c = true ->
  sensor_data_ge a c = true.
Proof.
  unfold sensor_data_ge. intros H1 H2.
  apply Z.leb_le in H1, H2. apply Z.leb_le. lia.
Qed.

Lemma sort_by_In {A} (le : A -> A -> bool) (l : list A) (a : A) :
  In a (sort_by le l) <-> In a l.
Proof.
  assert (P : forall x l', Permutation.Permutation (x :: l')
                             (insert_by le x l')).
  { intros x l'. induction l' as [|h t IH]; simpl;
      [apply Permutation.Permutation_refl|].
    destruct (le h x); [|apply Permutation.Permutation_refl].
    eapply Permutation.perm_trans; [apply Permutation.perm_swap|].
    now apply Permutation.perm_skip. }
  assert (G : forall l' acc,
             In a (fold_left (fun acc x => insert_by le x acc) l' acc)
             <-> In a l' \/ In a acc).
  { induction l' as [|h t IH]; intros acc; simpl; [tauto|].
    rewrite IH. split.
    - intros [H|H]; [tauto|].
      apply (Permutation.Permutation_in _
               (Permutation.Permutation_sym (P h acc))) in H.
      destruct H; tauto.
    - intros [[H|H]|H]; [right|tauto|right];
        apply (Permutation.Permutation_in _ (P h acc)).
      + now left.
      + now right. }
  unfold sort_by. rewrite G. simpl. tauto.
Qed.

Lemma get_latest_sensor_data_found sensor_id db d :
  get_latest_sensor_data sensor_id db = inl d ->
  In d (Database.sensor_data db) /\
  SensorData.sensor_id d = sensor_id /\
  forall d', In d' (Database.sensor_data db) ->
             SensorData.sensor_id d' = sensor_id ->
             (SensorData.timestamp d' <= SensorData.timestamp d)%Z.
Proof.
  unfold get_latest_sensor_data.
  set (rows := filter _ (Database.sensor_data db)).
  pose proof (sort_by_sorted sensor_data_ge sensor_data_ge_total
                sensor_data_ge_trans rows) as Hs.
  pose proof (sort_by_In sensor_data_ge rows) as Hin.
  destruct (sort_by sensor_data_ge rows) as [|h t]; [discriminate|].
  intros [= ->].
  assert (Hd : In d rows) by (apply Hin; now left).
  apply filter_In in Hd. destruct Hd as [Hd Hid].
  apply String.eqb_eq in Hid.
  split; [exact Hd|]. split; [exact Hid|].
  intros d' Hd' Hid'.
  assert (Hr : In d' rows).
  { apply filter_In. split; [exact Hd'|now apply String.eqb_eq]. }
  apply Hin in Hr. destruct Hr as [->|Hr]; [lia|].
  inversion Hs as [|? ? _ Hall]; subst.
  rewrite Forall_forall in Hall. specialize (Hall d' Hr).
  unfold sensor_data_ge in Hall. now apply Z.leb_le.
Qed.

(** X26: [get_latest_sensor_data] answers HTTP 404 exactly when the sensor
    has no row; otherwise it returns a row of that sensor whose timestamp
    no other row of the sensor exceeds; and right after a reading was
    stored with a clock reading later than every stored timestamp, it
    returns that reading. *)
Theorem get_latest_sensor_data_spec (sensor_id : string) (db : Database.t) :
  (get_latest_sensor_data sensor_id db
   = inr (HTTPError 404 "Sensor data not found") <->
   forall d, In d (Database.sensor_data db) ->
             SensorData.sensor_id d <> sensor_id) /\
  (forall d, get_latest_sensor_data sensor_id db = inl d ->
     In d (Database.sensor_data db) /\
     SensorData.sensor_id d = sensor_id /\
     forall d', In d' (Database.sensor_data db) ->
                SensorData.sensor_id d' = sensor_id ->
                (SensorData.timestamp d' <= SensorData.timestamp d)%Z) /\
  (forall utcnow reading,
     SensorDataCreate.sensor_id reading = sensor_id ->
     (forall d, In d (Database.sensor_data db) ->
                (SensorData.timestamp d < utcnow)%Z) ->
     get_latest_sensor_data sensor_id
       (snd (create_sensor_data utcnow reading db))
     = inl (fst (create_sensor_data utcnow reading db))).
Proof.
  split; [|split].
  - unfold get_latest_sensor_data.
    set (rows := filter _ (Database.sensor_data db)).
    pose proof (sort_by_In sensor_data_ge rows) as Hin.
    destruct (sort_by sensor_data_ge rows) as [|h t]; split.
    + intros _ d Hd Hid.
      assert (Hr : In d rows)
        by (apply filter_In; split; [exact Hd|now apply String.eqb_eq]).
      apply Hin in Hr. destruct Hr.
    + reflexivity.
    + discriminate.
    + intros H. exfalso.
      assert (Hh : In h rows) by (apply Hin; now left).
      apply filter_In in Hh. destruct Hh as [Hh Hid].
      apply String.eqb_eq in Hid. exact (H h Hh Hid).
  - intros d. apply get_latest_sensor_data_found.
  - intros utcnow reading Hid Hclock.
    set (db1 := snd (create_sensor_data utcnow reading db)).
    set (d1 := fst (create_sensor_data utcnow reading db)).
    assert (Hd1 : In d1 (Database.sensor_data db1))
      by (subst db1 d1; cbn; apply in_or_app; right; now left).
    destruct (get_latest_sensor_data sensor_id db1) as [d|e] eqn:G.
    + destruct (get_latest_sensor_data_found _ _ _ G) as (Hd & Hs & Hmax).
      specialize (Hmax d1 Hd1 Hid).
      subst db1. cbn [create_sensor_data snd Database.sensor_data] in Hd.
      apply in_app_or in Hd. destruct Hd as [Hd|[<-|[]]].
      * specialize (Hclock d Hd).
        cbn [d1 create_sensor_data fst SensorData.timestamp] in Hmax. lia.
      * reflexivity.
    + exfalso. revert G. unfold get_latest_sensor_data.
      set (rows := filter _ (Database.sensor_data db1)).
      pose proof (sort_by_In sensor_data_ge rows) as Hin.
      destruct (sort_by sensor_data_ge rows) as [|h t]; [|discriminate].
      intros _.
      assert (Hr : In d1 rows)
        by (apply filter_In; split; [exact Hd1|now apply String.eqb_eq]).
      apply Hin in Hr. destruct Hr.
Qed.

Lemma filter_by_In param field rows d :
  In d (filter_by param field rows) ->
  In d rows /\
  (forall s, param = Some s -> s <> ""%string -> field d = s).
Proof.
  unfold filter_by. destruct param as [[|c s]|].
  - intros H. split; [exact H|]. intros s' [= <-] Hne. congruence.
  - intros H. apply filter_In in H. destruct H as [H E].
    apply String.eqb_eq in E. split; [exact H|].
    now intros s' [= <-] _.
  - intros H. split; [exact H|]. discriminate.
Qed.

Lemma In_firstn_skipn {A} (limit offset : nat) (l : list A) (a : A) :
  In a (firstn limit (skipn offset l)) -> In a l.
Proof.
  intros H.
  rewrite <- (firstn_skipn offset l). apply in_or_app. right.
  rewrite <- (firstn_skipn limit (skipn offset l)).
  apply in_or_app. now left.
Qed.

(** X27: [get_sensor_data] returns at most [limit] rows, all of them rows
    of the table that match every non-empty filter given; a filter given
    as the empty string filters nothing, like a filter left out. *)
Theorem get_sensor_data_spec (sensor_id sensor_type : option string)
  (limit offset : nat) (db : Database.t) :
  let rows := get_sensor_data sensor_id sensor_type limit offset db in
  (length rows <= limit)%nat /\
  (forall d, In d rows ->
     In d (Database.sensor_data db) /\
     (forall s, sensor_id = Some s -> s <> ""%string ->
                SensorData.sensor_id d = s) /\
     (forall s, sensor_type = Some s -> s <> ""%string ->
                SensorData.sensor_type d = s)) /\
  get_sensor_data (Some ""%string) sensor_type limit offset db
  = get_sensor_data None sensor_type limit offset db /\
  get_sensor_data sensor_id (Some ""%string) limit offset db
  = get_sensor_data sensor_id None limit offset db.
Proof.
  intros rows. subst rows. unfold get_sensor_data.
  split; [apply firstn_le_length|]. split; [|split; reflexivity].
  intros d Hd. apply In_firstn_skipn in Hd. apply sort_by_In in Hd.
  apply filter_by_In in Hd. destruct Hd as [Hd Ht].
  apply filter_by_In in Hd. destruct Hd as [Hd Hs].
  split; [exact Hd|]. split; assumption.
Qed.

(** ** The sensor status report *)

Lemma count_status_partition (l : list SensorStatus.t) :
  (forall e, In e l -> SensorStatus.status e = "healthy"%string \/
                       SensorStatus.status e = "stale"%string) ->
  (count_status "healthy" l + count_status "stale" l)%nat = length l.
Proof.
  unfold count_status.
  induction l as [|e l IH]; intros H; [reflexivity|].
  cbn [filter length].
  specialize (IH (fun x Hx => H x (or_intror Hx))).
  destruct (H e (or_introl eq_refl)) as [-> | ->];
    cbn [String.eqb Ascii.eqb Bool.eqb andb]; cbn [length]; lia.
Qed.

Lemma combine_seq_nth_error {A} (l : list A) (a k : nat) :
  nth_error (combine (seq a (length l)) l) k
  = match nth_error l k with
    | Some d => Some ((a + k)%nat, d)
    | None => None
    end.
Proof.
  revert a k. induction l as [|h t IH]; intros a [|k]; simpl;
    try reflexivity.
  - now rewrite Nat.add_0_r.
  - rewrite IH. destruct (nth_error t k); [|reflexivity].
    do 2 f_equal. lia.
Qed.

Lemma sensor_status_nth (clock : nat -> Z) (rows : list SensorData.t)
  (k : nat) :
  nth_error (map (fun kd => sensor_status (clock (fst kd)) (snd kd))
               (combine (seq 0 (length rows)) rows)) k
  = match nth_error rows k with
    | Some d => Some (sensor_status (clock k) d)
    | None => None
    end.
Proof.
  rewrite nth_error_map, combine_seq_nth_error.
  now destruct (nth_error rows k).
Qed.

Lemma newest_row_exists (table : list SensorData.t) (sensor_id : string) :
  (exists d, In d table /\ SensorData.sensor_id d = sensor_id) ->
  exists l, In l table /\ SensorData.sensor_id l = sensor_id /\
            forall d', In d' table ->
                       SensorData.sensor_id d' = sensor_id ->
                       (SensorData.timestamp d' <= SensorData.timestamp l)%Z.
Proof.
  induction table as [|h t IH]; intros (d & Hd & Hid); [contradiction|].
  destruct (existsb (fun x => String.eqb (SensorData.sensor_id x) sensor_id)
              t) eqn:Ex.
  - apply existsb_exists in Ex. destruct Ex as (x & Hx & Hxid).
    apply String.eqb_eq in Hxid.
    destruct (IH (ex_intro _ x (conj Hx Hxid))) as (l & Hl & Hlid & Hmax).
    destruct (String.eqb_spec (SensorData.sensor_id h) sensor_id) as [Hh|Hh].
    + destruct (Z.le_gt_cases (SensorData.timestamp h)
                  (SensorData.timestamp l)) as [Hle|Hgt].
      * exists l. split; [now right|]. split; [exact Hlid|].
        intros d' [<-|Hd'] Hd'id; [exact Hle|now apply Hmax].
      * exists h. split; [now left|]. split; [exact Hh|].
        intros d' [<-|Hd'] Hd'id; [lia|].
        specialize (Hmax d' Hd' Hd'id). lia.
    + exists l. split; [now right|]. split; [exact Hlid|].
      intros d' [<-|Hd'] Hd'id; [contradiction|now apply Hmax].
  - assert (Hno : forall x, In x t -> SensorData.sensor_id x <> sensor_id).
    { intros x Hx E.
      assert (existsb (fun x => String.eqb (SensorData.sensor_id x)
                                  sensor_id) t = true).
      { apply existsb_exists. exists x. split; [exact Hx|].
        now apply String.eqb_eq. }
      congruence. }
    destruct Hd as [<-|Hd]; [|exfalso; exact (Hno d Hd Hid)].
    exists h. split; [now left|]. split; [exact Hid|].
    intros d' [<-|Hd'] Hd'id; [lia|exfalso; exact (Hno d' Hd' Hd'id)].
Qed.

Lemma latest_rows_In (table : list SensorData.t) (l : SensorData.t) :
  In l (latest_rows table) <->
  In l table /\
  forall d', In d' table ->
             SensorData.sensor_id d' = SensorData.sensor_id l ->
             (SensorData.timestamp d' <= SensorData.timestamp l)%Z.
Proof.
  unfold latest_rows. rewrite filter_In, forallb_forall.
  split; intros [Hl H]; (split; [exact Hl|]).
  - intros d' Hd' Hid. specialize (H d' Hd').
    apply orb_true_iff in H. destruct H as [H|H].
    + apply negb_true_iff, String.eqb_neq in H. contradiction.
    + now apply Z.leb_le.
  - intros d' Hd'. apply orb_true_iff.
    destruct (String.eqb_spec (SensorData.sensor_id d')
                (SensorData.sensor_id l)) as [E|E].
    + right. apply Z.leb_le. now apply H.
    + now left.
Qed.

(** X29: the status report lists, for every sensor that has a row, its
    newest reading (and only newest readings); an entry is 'healthy' when
    that reading is less than 3600 seconds older than the clock read for
    it and 'stale' from exactly 3600 seconds on; the healthy and the stale
    count add up to the total count. *)
Theorem get_sensors_status_spec (clock : nat -> Z) (db : Database.t) :
  let report := get_sensors_status clock db in
  (SensorsStatus.healthy_count report + SensorsStatus.stale_count report
   = SensorsStatus.total_count report)%nat /\
  (forall d, In d (Database.sensor_data db) ->
     exists e, In e (SensorsStatus.sensors report) /\
               SensorStatus.sensor_id e = SensorData.sensor_id d /\
               (SensorData.timestamp d <= SensorStatus.last_seen e)%Z) /\
  (forall k e, nth_error (SensorsStatus.sensors report) k = Some e ->
     (exists l, In l (Database.sensor_data db) /\
                SensorData.sensor_id l = SensorStatus.sensor_id e /\
                SensorData.timestamp l = SensorStatus.last_seen e /\
                SensorData.value l = SensorStatus.latest_value e) /\
     (forall d, In d (Database.sensor_data db) ->
                SensorData.sensor_id d = SensorStatus.sensor_id e ->
                (SensorData.timestamp d <= SensorStatus.last_seen e)%Z) /\
     (SensorStatus.status e = "healthy"%string <->
      (clock k - SensorStatus.last_seen e < 3600 * 1000000)%Z) /\
     (SensorStatus.status e = "stale"%string <->
      (3600 * 1000000 <= clock k - SensorStatus.last_seen e)%Z)).
Proof.
  intros report. subst report. unfold get_sensors_status.
  cbn [SensorsStatus.healthy_count SensorsStatus.stale_count
       SensorsStatus.total_count SensorsStatus.sensors].
  set (rows := latest_rows (Database.sensor_data db)).
  split; [|split].
  - apply count_status_partition.
    intros e He. apply in_map_iff in He. destruct He as (kd & <- & _).
    unfold sensor_status. cbn [SensorStatus.status].
    destruct (_ <? _)%Z; [now left|now right].
  - intros d Hd.
    destruct (newest_row_exists (Database.sensor_data db)
                (SensorData.sensor_id d)) as (l & Hl & Hlid & Hmax);
      [now exists d|].
    assert (Hin : In l rows).
    { apply latest_rows_In. split; [exact Hl|].
      intros d' Hd' E. apply Hmax; [exact Hd'|congruence]. }
    apply In_nth_error in Hin. destruct Hin as (k & Hk).
    exists (sensor_status (clock k) l). split.
    + eapply nth_error_In. rewrite sensor_status_nth, Hk. reflexivity.
    + cbn. split; [exact Hlid|]. now apply Hmax.
  - intros k e He. rewrite sensor_status_nth in He.
    destruct (nth_error rows k) as [l|] eqn:Hk; [|discriminate].
    injection He as <-.
    apply nth_error_In, latest_rows_In in Hk. destruct Hk as [Hl Hmax].
    unfold sensor_status.
    cbn [SensorStatus.sensor_id SensorStatus.last_seen SensorStatus.status
         SensorStatus.latest_value].
    split; [exists l; repeat split; exact Hl|]. split; [exact Hmax|].
    destruct (Z.ltb_spec (clock k - SensorData.timestamp l)
                (3600 * 1000000));
      split; split; intros H'; try reflexivity; try discriminate; lia.
Qed.

(** ** Training and inference build the same sequence *)

(** X30: the sequence [predict_anomaly] cuts from a frame of 24 rows or
    more, its last 24 rows, is the last sequence [_create_sequences]
    builds from the same frame, and the label of that sequence is the
    label of the newest row. *)
Theorem last_training_sequence_is_scored_sequence
  (data : list (list float)) (labels : list Z) :
  (sequence_length <= length data)%nat ->
  length labels = length data ->
  exists X y,
    _create_sequences data labels = Ok (X, y) /\
    nth_error X (length X - 1) = Some (last_rows sequence_length data) /\
    nth_error y (length X - 1) = nth_error labels (length data - 1).
Proof.
  intros HL Hlab. unfold _create_sequences, range.
  set (n := Z.to_nat (Z.of_nat (length data) - Z.of_nat sequence_length + 1)).
  assert (Hn : n = (length data - sequence_length + 1)%nat) by (subst n; lia).
  destruct (create_sequences_loop_seq data labels n 0 [] [])
    as (ys & Heq & Hlen & Hnth).
  { unfold sequence_length in *. lia. }
  simpl in Heq. eexists _, ys. split; [exact Heq|].
  rewrite length_map, length_seq.
  assert (Hidx : (n - 1 = length data - sequence_length)%nat) by lia.
  split.
  - rewrite nth_error_map_seq by lia. f_equal.
    rewrite Hidx. unfold slice, last_rows.
    replace (length data - sequence_length + sequence_length
             - (length data - sequence_length))%nat
      with sequence_length by lia.
    apply firstn_all2. rewrite length_skipn. lia.
  - rewrite Hnth by lia. f_equal. unfold sequence_length in *. lia.
Qed.

End Generic.

(** ** Examples

    The theorems above at concrete inputs, run with the kernels that keep
    the window. *)

Section Examples.

#[local] Existing Instance textbook_kernels.


Lemma predict_anomaly_insufficient_history_witness :
  (length two_readings < sequence_length)%nat /\
  fst (predict_anomaly no_artifacts two_readings (loaded 0.97))
    = Ok (false, 0).
Proof.
  split; [vm_compute; lia|].
  eapply (predict_anomaly_insufficient_history no_artifacts two_readings
            (loaded 0.97)).
  - vm_compute. lia.
  - reflexivity.
  - reflexivity.
  - reflexivity.
  - reflexivity.
Defined.

(** C1 fails as stated: a series of two readings (fewer than 24) makes
    [predict_anomaly] raise when no model can be loaded, and so does the
    empty series even with a model loaded. *)
Lemma predict_anomaly_short_series_raises :
  (length two_readings < sequence_length)%nat /\
  fst (predict_anomaly no_artifacts two_readings ModelState.init)
    = Raise (LoadError "model") /\
  (length (@nil Reading.t) < sequence_length)%nat /\
  fst (predict_anomaly no_artifacts [] (loaded 0.97))
    = Raise (KeyError "timestamp").
Proof.
  split; [vm_compute; lia|]. split; [reflexivity|].
  split; [vm_compute; lia|reflexivity].
Qed.

Lemma detect_anomaly_alert_iff_witness :
  fst (predict_anomaly no_artifacts (stable_history ++ [spike]) (loaded 0.97))
    = Ok (true, 0.97) /\
  DetectionResult.is_anomaly
    (fst (detect_anomaly Settings.default no_artifacts 0 spike stable_history
            (loaded 0.97))) = true.
Proof.
  assert (Hp : fst (predict_anomaly no_artifacts (stable_history ++ [spike])
                      (loaded 0.97)) = Ok (true, 0.97))
    by (vm_compute; reflexivity).
  split; [exact Hp|].
  destruct (detect_anomaly_alert_iff Settings.default no_artifacts 0 spike
              stable_history (loaded 0.97) true 0.97 Hp) as (_ & H & _).
  apply H. split; reflexivity.
Defined.

Lemma detect_anomaly_artifact_missing_witness :
  exists what,
    fst (detect_anomaly Settings.default no_artifacts 0 spike stable_history
           ModelState.init)
      = DetectionResult.mk false 0 "error" (DetectionError (LoadError what))
          None None None /\
    DetectionResult.severity
      (fst (detect_anomaly Settings.default no_artifacts 0 spike
              stable_history ModelState.init))
      <> "normal"%string.
Proof.
  destruct (detect_anomaly_artifact_missing Settings.default no_artifacts 0
              spike stable_history ModelState.init eq_refl)
    as (what & Hrec & Hsev & _).
  exists what. split; [exact Hrec|exact Hsev].
Defined.

(** C7 fails as stated: with no artifact to load, [detect_anomaly]
    returns the decision fields of a non-anomalous result (is_anomaly =
    False, anomaly_score = 0.0), and after [process_sensor_data_async] the
    tables are the ones a loaded model leaves that scored the same
    reading as not anomalous with score 0.0 and severity 'normal'. *)
Lemma detect_anomaly_artifact_missing_default_verdict :
  let current :=
    produce_sensor_data 1500 (SensorDataCreate.dict temperature_20) in
  let hist := [reading_at 1000 20] in
  let failed :=
    fst (detect_anomaly Settings.default no_artifacts 2000 current hist
           ModelState.init) in
  let scored :=
    fst (detect_anomaly Settings.default no_artifacts 2000 current hist
           (loaded 0.97)) in
  ready no_artifacts ModelState.init = None /\
  DetectionResult.is_anomaly failed = false /\
  DetectionResult.anomaly_score failed = 0 /\
  DetectionResult.severity scored = "normal"%string /\
  DetectionResult.is_anomaly scored = DetectionResult.is_anomaly failed /\
  DetectionResult.anomaly_score scored
    = DetectionResult.anomaly_score failed /\
  World.db (process_sensor_data_async Settings.default no_artifacts 2000
              current 1 one_reading_world)
  = World.db (process_sensor_data_async Settings.default no_artifacts 2000
                current 1
                (World.mk (World.db one_reading_world) [] (loaded 0.97))).
Proof.
  cbv zeta. repeat split; vm_compute; reflexivity.
Qed.

Lemma detect_anomaly_error_branch_witness :
  DetectionResult.severity
    (fst (detect_anomaly Settings.default no_artifacts 0 spike stable_history
            ModelState.init)) = "error"%string.
Proof.
  destruct (detect_anomaly_error_branch Settings.default no_artifacts 0 spike
              stable_history ModelState.init) as (H & _).
  destruct (H (LoadError "model") eq_refl) as (_ & _ & Hs & _).
  exact Hs.
Defined.

Lemma append_twice_adds_entry_witness :
  entries_at 1000
    (fst (get_historical_sensor_data "sensor-1" 24 2000
            (snd (create_sensor_data 1000 temperature_20
                    (snd (create_sensor_data 1000 temperature_20
                            Database.empty))))
            [])) = 2%nat.
Proof.
  destruct (append_twice_adds_entry 1000 temperature_20 Database.empty 24
              2000 [] eq_refl ltac:(vm_compute; discriminate))
    as (H & _).
  etransitivity; [exact H|reflexivity].
Defined.

(** C8 fails as stated: after the same reading is appended twice with the
    same timestamp, the window holds two entries for that timestamp, while
    it holds one after the first append. *)
Lemma append_twice_duplicates_timestamp :
  let db1 := snd (create_sensor_data 1000 temperature_20 Database.empty) in
  let db2 := snd (create_sensor_data 1000 temperature_20 db1) in
  let window1 :=
    fst (get_historical_sensor_data "sensor-1" 24 2000 db1 []) in
  let window2 :=
    fst (get_historical_sensor_data "sensor-1" 24 2000 db2 []) in
  window1 = [reading_at 1000 20] /\
  window2 = [reading_at 1000 20; reading_at 1000 20] /\
  window2 <> window1 /\
  entries_at 1000 window2 = 2%nat.
Proof.
  cbv zeta. repeat split; try reflexivity. discriminate.
Qed.

Lemma engineer_features_no_nan_witness :
  exists f0 f1,
    _engineer_features zero_then_five = Ok [f0; f1] /\
    forallb not_nan (Features.values f1) = true.
Proof.
  eexists _, _. split; [reflexivity|].
  eapply (engineer_features_no_nan zero_then_five); [reflexivity|].
  right. left. reflexivity.
Defined.

Lemma engineer_features_row_witness :
  exists f r,
    nth_error (sort_values [reading_at (30 * usec_per_hour) 7]) 0 = Some r /\
    Features.value f = fillna 0 (Reading.value r) /\
    Features.hour f = 6 /\ Features.day_of_week f = 4.
Proof.
  destruct (engineer_features_row [reading_at (30 * usec_per_hour) 7] _ 0 _
              eq_refl eq_refl) as (r & Hr & Hv & Ht).
  eexists _, r. split; [exact Hr|]. split; [exact Hv|].
  split; reflexivity.
Defined.

Lemma value_diff_previous_point_witness :
  exists f0 f1,
    _engineer_features zero_then_five = Ok [f0; f1] /\
    Features.value_diff f1 = fillna 0 (5 - 0).
Proof.
  eexists _, _. split; [reflexivity|].
  eapply (value_diff_previous_point zero_then_five _ 0 _ 5 0);
    reflexivity.
Defined.

Lemma engineer_features_first_point_witness :
  exists f0 f1,
    _engineer_features zero_then_five = Ok [f0; f1] /\
    Features.value_diff f0 = 0 /\ Features.value_change_rate f0 = 0.
Proof.
  eexists _, _. split; [reflexivity|].
  eapply (engineer_features_first_point zero_then_five). reflexivity.
Defined.

Lemma change_rate_zero_predecessor_witness :
  exists f0 f1,
    _engineer_features zero_then_five = Ok [f0; f1] /\
    is_infinity (Features.value_change_rate f1) = true.
Proof.
  eexists _, _. split; [reflexivity|].
  eapply (change_rate_zero_predecessor zero_then_five _ 0 _ 5 0);
    reflexivity.
Defined.

Lemma engineer_features_order_independent_witness :
  _engineer_features [reading_at 0 0; reading_at 1000000 5]
  = _engineer_features [reading_at 1000000 5; reading_at 0 0].
Proof.
  apply (engineer_features_order_independent
           [reading_at 0 0; reading_at 1000000 5]
           [reading_at 1000000 5; reading_at 0 0]).
  - apply Permutation.perm_swap.
  - repeat constructor; simpl; intuition discriminate.
Defined.

Lemma create_sequences_short_witness :
  _create_sequences [[1]; [2]] [] = Ok ([], []).
Proof.
  apply (create_sequences_short [[1]; [2]] []). vm_compute. lia.
Defined.

Lemma create_sequences_labels_too_short_witness :
  _create_sequences rows25 (firstn 24 labels25)
  = Raise (IndexError "labels").
Proof.
  apply (create_sequences_labels_too_short rows25 (firstn 24 labels25));
    vm_compute; lia.
Defined.

Lemma predict_anomaly_loads_once_witness :
  snd (predict_anomaly (Artifacts.mk (Some (constant_model 0.97))
                          (Some unit_scaler))
         two_readings ModelState.init)
  = loaded 0.97.
Proof.
  apply (predict_anomaly_loads_once
           (Artifacts.mk (Some (constant_model 0.97)) (Some unit_scaler))
           two_readings ModelState.init (constant_model 0.97) unit_scaler).
  reflexivity.
Defined.

Lemma predict_anomaly_failed_load_witness :
  predict_anomaly (Artifacts.mk (Some (constant_model 0.97)) None)
    two_readings ModelState.init
  = (Raise (LoadError "scaler"),
     ModelState.mk (Some (constant_model 0.97)) None).
Proof.
  apply (predict_anomaly_failed_load
           (Artifacts.mk (Some (constant_model 0.97)) None)
           two_readings ModelState.init).
  reflexivity.
Defined.

Lemma predict_anomaly_latest_sequence_witness :
  fst (predict_anomaly no_artifacts (stable_history ++ [spike]) (loaded 0.97))
  = Ok (true, 0.97).
Proof.
  assert (H : exists df X,
             _engineer_features (stable_history ++ [spike]) = Ok df /\
             StandardScaler.transform unit_scaler (map Features.values df)
             = Ok X).
  { eexists _, _. split; vm_compute; reflexivity. }
  destruct H as (df & X & Hdf & HX).
  destruct (predict_anomaly_latest_sequence no_artifacts
              (stable_history ++ [spike]) (loaded 0.97)
              (constant_model 0.97) unit_scaler df X
              ltac:(vm_compute; lia) eq_refl Hdf HX)
    as (_ & _ & _ & H & _).
  exact H.
Defined.

Lemma detect_anomaly_always_critical_witness :
  DetectionResult.severity
    (fst (detect_anomaly Settings.default no_artifacts 0 spike stable_history
            (loaded 0.97))) = "critical"%string.
Proof.
  apply (detect_anomaly_always_critical Settings.default no_artifacts 0 spike
           stable_history (loaded 0.97)).
  - reflexivity.
  - vm_compute. reflexivity.
Defined.

Lemma process_sensor_data_async_stores_result_witness :
  exists d',
    In d' (Database.sensor_data
             (World.db (process_sensor_data_async Settings.default
                          no_artifacts 2000
                          (SensorDataCreate.dict temperature_20) 1
                          one_reading_world))) /\
    SensorData.id d' = 1%nat /\
    SensorData.is_anomaly d' = false /\
    SensorData.anomaly_score d' = Some 0.
Proof.
  eexists. split; [left; reflexivity|]. split; [reflexivity|].
  destruct (process_sensor_data_async_stores_result Settings.default
              no_artifacts 2000 (SensorDataCreate.dict temperature_20) 1
              one_reading_world _ (or_introl eq_refl) eq_refl)
    as (_ & _ & H).
  destruct (H eq_refl) as (H1 & H2 & _). split; assumption.
Defined.

Lemma process_sensor_data_async_alert_witness :
  exists a,
    Database.anomaly_alerts
      (World.db (process_sensor_data_async Settings.default no_artifacts
                   (23 * usec_per_hour) spike 1 spike_world)) = [a] /\
    AnomalyAlert.severity a = "critical"%string /\
    AnomalyAlert.sensor_value a = 200.
Proof.
  destruct (process_sensor_data_async_alert (K := textbook_kernels)
              Settings.default no_artifacts
              (23 * usec_per_hour) spike 1 spike_world
              ltac:(vm_compute; reflexivity))
    as (a & Hal & _ & _ & _ & _ & Hv & Hs & _ & _ & Hthr).
  exists a. split; [exact Hal|]. split; [|exact Hv].
  rewrite Hs. unfold _determine_severity.
  now rewrite (geb_weaken 0.9 0.95 _ eq_refl Hthr).
Defined.

Lemma get_historical_cached_five_minutes_witness :
  fst (get_historical_sensor_data "sensor-1" 24 3000
         (snd (create_sensor_data 2500 temperature_20
                 (World.db one_reading_world)))
         (snd (get_historical_sensor_data "sensor-1" 24 2000
                 (World.db one_reading_world) [])))
  = [reading_at 1000 20].
Proof.
  destruct (get_historical_cached_five_minutes "sensor-1" 24 2000 3000
              (World.db one_reading_world)
              (snd (create_sensor_data 2500 temperature_20
                      (World.db one_reading_world)))
              [] eq_refl ltac:(discriminate)) as [H _].
  rewrite (H ltac:(lia)). reflexivity.
Defined.

Lemma get_historical_empty_not_cached_witness :
  fst (get_historical_sensor_data "sensor-1" 24 3000
         (World.db one_reading_world)
         (snd (get_historical_sensor_data "sensor-1" 24 2000
                 Database.empty [])))
  = [reading_at 1000 20].
Proof.
  rewrite (get_historical_empty_not_cached "sensor-1" 24 2000 3000
             Database.empty (World.db one_reading_world) [] eq_refl).
  reflexivity.
Defined.

Lemma get_historical_window_contents_witness :
  length (fst (get_historical_sensor_data "sensor-1" 24 2000
                 (World.db one_reading_world) [])) = 1%nat.
Proof.
  destruct (get_historical_window_contents "sensor-1" 24 2000
              (World.db one_reading_world) [] eq_refl) as (_ & H & _).
  rewrite H. reflexivity.
Defined.

Lemma background_task_scores_timestamped_witness :
  snd (background_task Settings.default no_artifacts true KafkaSendFailed
         1500 2000 (SensorDataCreate.dict temperature_20) 1
         one_reading_world)
  = one_reading_world.
Proof.
  destruct (background_task_scores_timestamped Settings.default no_artifacts
              true KafkaSendFailed 1500 2000 temperature_20 1
              one_reading_world)
    as (_ & H & _).
  apply H. right. discriminate.
Defined.

Lemma scored_reading_follows_itself_witness :
  exists feats f,
    _engineer_features
      (fst (get_historical_sensor_data "sensor-1" 24 2000
              (World.db one_reading_world) [])
       ++ [produce_sensor_data 1500 (SensorDataCreate.dict temperature_20)])
    = Ok feats /\
    nth_error feats 1 = Some f /\
    Features.value_diff f = 0.
Proof.
  assert (H : exists feats,
             _engineer_features
               (fst (get_historical_sensor_data "sensor-1" 24 2000
                       (World.db one_reading_world) [])
                ++ [produce_sensor_data 1500
                      (SensorDataCreate.dict temperature_20)])
             = Ok feats).
  { eexists. vm_compute. reflexivity. }
  destruct H as (feats & Hf).
  destruct (scored_reading_follows_itself temperature_20 Database.empty []
              1000 1500 2000 feats)
    as (earlier & before & f & _ & _ & _ & _ & Hn & _ & Hd).
  - intros d [].
  - lia.
  - vm_compute. discriminate.
  - reflexivity.
  - exact Hf.
  - exists feats, f. split; [exact Hf|]. split; [exact Hn|exact Hd].
Defined.

Lemma get_latest_sensor_data_spec_witness :
  get_latest_sensor_data "sensor-1"
    (snd (create_sensor_data 2000 temperature_20
            (World.db one_reading_world)))
  = inl (fst (create_sensor_data 2000 temperature_20
                (World.db one_reading_world))).
Proof.
  destruct (get_latest_sensor_data_spec "sensor-1"
              (World.db one_reading_world)) as (_ & _ & H).
  apply H; [reflexivity|].
  intros d [<-|[]]. vm_compute. reflexivity.
Defined.

Lemma last_training_sequence_is_scored_sequence_witness :
  exists X y,
    _create_sequences rows25 labels25 = Ok (X, y) /\
    nth_error X (length X - 1) = Some (last_rows sequence_length rows25).
Proof.
  destruct (last_training_sequence_is_scored_sequence rows25 labels25)
    as (X & y & H1 & H2 & _).
  - vm_compute. lia.
  - reflexivity.
  - exists X, y. split; assumption.
Defined.

End Examples.
